(** * SelectedTag and the component build script of Open Library, in Rocq

    A shallow embedding of

    - [openlibrary/plugins/openlibrary/js/bulk-tagger/BulkTagger/SelectedTag.js]
      (the class [SelectedTag]) and
    - [openlibrary/components/vite.config.mjs]
      (the functions [getComponentNames] and [generateViteEntryFile] and
      the exported bundler configuration),

    together with the part of the JavaScript and DOM environment those
    files run against.

    JavaScript strings are sequences of code units; here they are Rocq
    [string]s, one [ascii] per code unit, which covers the code units
    below 256.  JavaScript objects that are shared and mutated (the DOM
    elements) live in a store, a [gmap] from object identities to
    elements, and the methods of [SelectedTag] are written in a monad
    that threads the instance and the document and records a thrown
    exception together with the state reached when it was thrown. *)

From Stdlib Require Import String Ascii List Bool Arith Lia.
From stdpp Require Import base option list strings gmap fin_maps.

Local Open Scope string_scope.

(** ** JavaScript strings *)

Module JSString.

(** The double quote and the line feed, which the sources write inside
    their template literals. *)
Definition dquote : string := String (ascii_of_nat 34) "".
Definition newline : string := String (ascii_of_nat 10) "".

(** [String.prototype.toLowerCase] on one code unit below 256: the
    letters A-Z and the Latin-1 capitals U+00C0-U+00DE, the
    multiplication sign U+00D7 apart, move up by 32. *)
Definition lowerUnit (c : ascii) : ascii :=
  let n := nat_of_ascii c in
  if ((65 <=? n)%nat && (n <=? 90)%nat)
     || ((192 <=? n)%nat && (n <=? 222)%nat && negb (n =? 215)%nat)
  then ascii_of_nat (n + 32) else c.

(** [String.prototype.toLowerCase] on a string of code units below
    256: there it maps each code unit by itself and keeps the length.
    (On other strings it does neither: U+0130 becomes two code units,
    and a capital sigma is mapped by its position in the word.) *)
Fixpoint toLowerCase (s : string) : string :=
  match s with
  | "" => ""
  | String c r => String (lowerUnit c) (toLowerCase r)
  end.

(** [s.startsWith(p)] *)
Fixpoint startsWith (s p : string) : bool :=
  match p with
  | "" => true
  | String b p' =>
      match s with
      | "" => false
      | String a s' => if Ascii.eqb a b then startsWith s' p' else false
      end
  end.

(** [s.includes(p)] *)
Fixpoint includes (s p : string) : bool :=
  startsWith s p
  || match s with
     | "" => false
     | String _ r => includes r p
     end.

Fixpoint skip (n : nat) (s : string) : string :=
  match n, s with
  | S k, String _ r => skip k r
  | _, _ => s
  end.

(** [s.replace(p, r)] with a string pattern: the first occurrence only.
    ([r] is used as it is; the sources only pass the empty string.) *)
Fixpoint replace (s p r : string) : string :=
  if startsWith s p then r +:+ skip (String.length p) s
  else match s with
       | "" => ""
       | String c t => String c (replace t p r)
       end.

(** [s.endsWith(p)], used to state what a file extension is. *)
Definition endsWith (s p : string) : bool :=
  (String.length p <=? String.length s)%nat
  && String.eqb (skip (String.length s - String.length p) s) p.

(** Property lookup [o[k]] on an object literal, converted to a string
    as a template literal does.  An own property gives its value; a
    name that every object inherits from [Object.prototype] gives the
    text of that member; any other name gives [undefined]. *)
Fixpoint assoc (k : string) (o : list (string * string)) : option string :=
  match o with
  | [] => None
  | (k', v) :: r => if String.eqb k k' then Some v else assoc k r
  end.

(** The members of [Object.prototype] with the text V8 prints for
    them (the text of a built-in function is fixed by the engine). *)
Definition nativeText (name : string) : string :=
  "function " +:+ name +:+ "() { [native code] }".

Definition ObjectPrototype : list (string * string) :=
  [ ("constructor", nativeText "Object");
    ("__proto__", "[object Object]");
    ("hasOwnProperty", nativeText "hasOwnProperty");
    ("isPrototypeOf", nativeText "isPrototypeOf");
    ("propertyIsEnumerable", nativeText "propertyIsEnumerable");
    ("toLocaleString", nativeText "toLocaleString");
    ("toString", nativeText "toString");
    ("valueOf", nativeText "valueOf");
    ("__defineGetter__", nativeText "__defineGetter__");
    ("__defineSetter__", nativeText "__defineSetter__");
    ("__lookupGetter__", nativeText "__lookupGetter__");
    ("__lookupSetter__", nativeText "__lookupSetter__") ].

Definition interpolateProperty (o : list (string * string)) (k : string)
  : string :=
  match assoc k o with
  | Some v => v
  | None =>
      match assoc k ObjectPrototype with
      | Some t => t
      | None => "undefined"
      end
  end.

End JSString.

(** ** The document object model *)

Module DOM.

(** A child of an element: another element, by identity, a text node or
    a comment. *)
Inductive child : Type :=
| CElem (n : nat)
| CText (s : string)
| CComment (s : string).

#[global] Instance child_eq_dec : EqDecision child.
Proof. solve_decision. Defined.

(** An element.  The [class] attribute is kept as its ordered token
    set, [classList]; [attributes] holds the other attributes. *)
Record element : Type := Element {
  localName : string;
  classList : list string;
  attributes : list (string * string);
  parentNode : option nat;
  childNodes : list child
}.

Definition with_classList (f : list string -> list string) (e : element)
  : element :=
  Element (localName e) (f (classList e)) (attributes e) (parentNode e)
          (childNodes e).

Definition with_parentNode (p : option nat) (e : element) : element :=
  Element (localName e) (classList e) (attributes e) p (childNodes e).

Definition with_childNodes (f : list child -> list child) (e : element)
  : element :=
  Element (localName e) (classList e) (attributes e) (parentNode e)
          (f (childNodes e)).

(** The store of elements and the root of the document.  Elements that
    are not reachable from [documentElement] are detached; they stay in
    the store while a script holds a reference to them. *)
Record document : Type := Document {
  nodes : gmap nat element;
  documentElement : nat
}.

Definition with_nodes (f : gmap nat element -> gmap nat element)
    (d : document) : document :=
  Document (f (nodes d)) (documentElement d).

(** *** DOMTokenList *)

Definition contains (t : string) (l : list string) : bool :=
  bool_decide (t ∈ l).

Definition add (t : string) (l : list string) : list string :=
  if contains t l then l else l ++ [t].

Definition remove (t : string) (l : list string) : list string :=
  filter (fun x => x ≠ t) l.

Definition toggle (t : string) (l : list string) : list string :=
  if contains t l then remove t l else l ++ [t].

(** *** Selectors: a single class selector [.name] *)

Definition matches (sel : string) (e : element) : bool :=
  match sel with
  | String "."%char c => contains c (classList e)
  | _ => false
  end.

(** The outcome of a search in tree order. [Stuck] is a search that
    met a reference to no element or ran deeper than its bound. *)
Inductive found : Type :=
| Found (n : nat)
| NotFound
| Stuck.

Section search.
Context (m : gmap nat element) (sel : string).

Fixpoint scan (deeper : list child -> found) (cs : list child) : found :=
  match cs with
  | [] => NotFound
  | CElem n :: rest =>
      match m !! n with
      | Some e =>
          if matches sel e then Found n
          else match deeper (childNodes e) with
               | NotFound => scan deeper rest
               | r => r
               end
      | None => Stuck
      end
  | _ :: rest => scan deeper rest
  end.

Fixpoint descend (fuel : nat) (cs : list child) : found :=
  match fuel with
  | 0 => Stuck
  | S f => scan (descend f) cs
  end.
End search.

(** A tree with [k] elements is no deeper than [k]. *)
Definition bound (d : document) : nat := S (size (nodes d)).

(** [document.querySelector(sel)]: the first element of the document,
    in tree order, that matches. *)
Definition document_querySelector (sel : string) (d : document) : found :=
  descend (nodes d) sel (bound d) [CElem (documentElement d)].

(** [n.querySelector(sel)]: the first descendant of [n] that matches. *)
Definition element_querySelector (n : nat) (sel : string) (d : document)
  : found :=
  match nodes d !! n with
  | Some e => descend (nodes d) sel (bound d) (childNodes e)
  | None => Stuck
  end.

(** [document.createElement(name)] *)
Definition createElement (name : string) (d : document) : nat * document :=
  let n := fresh (dom (nodes d)) in
  (n, with_nodes (insert n (Element name [] [] None [])) d).

(** [n.remove()]: take [n] out of its parent, if it has one. *)
Definition removeNode (n : nat) (d : document) : document :=
  match nodes d !! n with
  | Some e =>
      match parentNode e with
      | Some p =>
          with_nodes
            (fun m =>
               alter (with_parentNode None) n
                 (alter (with_childNodes (filter (fun c => c ≠ CElem n))) p m))
            d
      | None => d
      end
  | None => d
  end.

(** [p.prepend(n)]: [n] leaves its parent, if any, and becomes the
    first child of [p]. *)
Definition prepend (p n : nat) (d : document) : document :=
  with_nodes
    (fun m =>
       alter (with_parentNode (Some p)) n
         (alter (with_childNodes (cons (CElem n))) p m))
    (removeNode n d).

End DOM.


(** ** Parsing markup: the [innerHTML] setter

    Assigning to [innerHTML] runs the browser's HTML fragment parser,
    which is no part of the repository.  It is modelled here as a
    tokenizer (a state machine over the code units, after the states of
    the HTML standard) followed by a tree builder that creates elements
    in the store.  The model covers character data, start and end tags
    with their attributes, comments and the character references
    [&amp;] [&lt;] [&gt;] [&quot;] [&apos;].  It leaves out: the other
    character references, the replacement of NUL and CR in the input,
    doctype tokens (read as comments), the elements whose content is raw
    text ([script], [style], [textarea], [title]) and every rule of tree
    construction that is particular to an element (implied end tags,
    formatting elements, tables, [head] and [body]): each start tag
    inserts an ordinary element, void elements apart. *)

Module HTML.

Definition isWhitespace (c : ascii) : bool :=
  let n := nat_of_ascii c in
  (n =? 9)%nat || (n =? 10)%nat || (n =? 12)%nat || (n =? 32)%nat.

Definition isUpper (c : ascii) : bool :=
  let n := nat_of_ascii c in (65 <=? n)%nat && (n <=? 90)%nat.

Definition isAlpha (c : ascii) : bool :=
  let n := nat_of_ascii c in
  ((65 <=? n)%nat && (n <=? 90)%nat) || ((97 <=? n)%nat && (n <=? 122)%nat).

Definition isAlnum (c : ascii) : bool :=
  let n := nat_of_ascii c in
  isAlpha c || ((48 <=? n)%nat && (n <=? 57)%nat).

Definition asciiLower (c : ascii) : ascii :=
  if isUpper c then ascii_of_nat (nat_of_ascii c + 32) else c.

Definition snoc (s : string) (c : ascii) : string := s +:+ String c "".

Record tag : Type := Tag {
  closing : bool;
  tagName : string;
  tagAttributes : list (string * string);
  selfClosing : bool
}.

Inductive token : Type :=
| TChar (c : ascii)
| TTag (t : tag)
| TComment (s : string).

Inductive quoting : Type := DoubleQuoted | SingleQuoted | Unquoted.

(** Where a character reference was met. *)
Inductive refContext : Type :=
| InData
| InAttribute (q : quoting) (t : tag) (n v : string).

Inductive state : Type :=
| Data
| TagOpen
| EndTagOpen
| TagName (t : tag)
| BeforeAttributeName (t : tag)
| AttributeName (t : tag) (n : string)
| AfterAttributeName (t : tag) (n : string)
| BeforeAttributeValue (t : tag) (n : string)
| AttributeValue (q : quoting) (t : tag) (n v : string)
| AfterAttributeValueQuoted (t : tag)
| SelfClosingStartTag (t : tag)
| MarkupDeclarationOpen
| MarkupDeclarationDash
| CommentStart
| CommentStartDash
| Comment (s : string) (pending : nat)
| BogusComment (s : string)
| CharacterReference (k : refContext) (name : string).

(** An attribute is dropped when the tag already has one of its name. *)
Definition addAttribute (t : tag) (n v : string) : tag :=
  match JSString.assoc n (tagAttributes t) with
  | Some _ => t
  | None =>
      Tag (closing t) (tagName t) (tagAttributes t ++ [(n, v)]) (selfClosing t)
  end.

Definition namedReferences : list (string * string) :=
  [ ("amp", "&"); ("lt", "<"); ("gt", ">");
    ("quot", JSString.dquote); ("apos", "'") ].

Fixpoint chars (s : string) : list token :=
  match s with
  | "" => []
  | String c r => TChar c :: chars r
  end.

Definition dataStep (c : ascii) : list token * state :=
  if Ascii.eqb c "<" then ([], TagOpen)
  else if Ascii.eqb c "&" then ([], CharacterReference InData "")
  else ([TChar c], Data).

Definition bogusCommentStep (s : string) (c : ascii) : list token * state :=
  if Ascii.eqb c ">" then ([TComment s], Data)
  else ([], BogusComment (snoc s c)).

Definition commentStep (s : string) (pending : nat) (c : ascii)
  : list token * state :=
  match pending with
  | 0 => if Ascii.eqb c "-" then ([], Comment s 1)
         else ([], Comment (snoc s c) 0)
  | 1 => if Ascii.eqb c "-" then ([], Comment s 2)
         else ([], Comment (snoc (snoc s "-") c) 0)
  | 2 => if Ascii.eqb c ">" then ([TComment s], Data)
         else if Ascii.eqb c "!" then ([], Comment s 3)
         else if Ascii.eqb c "-" then ([], Comment (snoc s "-") 2)
         else ([], Comment (snoc (s +:+ "--") c) 0)
  | _ => if Ascii.eqb c ">" then ([TComment s], Data)
         else if Ascii.eqb c "-" then ([], Comment (s +:+ "--!") 1)
         else ([], Comment (snoc (s +:+ "--!") c) 0)
  end.

Definition beforeAttributeNameStep (t : tag) (c : ascii)
  : list token * state :=
  if isWhitespace c then ([], BeforeAttributeName t)
  else if Ascii.eqb c "/" then ([], SelfClosingStartTag t)
  else if Ascii.eqb c ">" then ([TTag t], Data)
  else ([], AttributeName t (String (asciiLower c) "")).

Definition attributeValueStep (q : quoting) (t : tag) (n v : string)
    (c : ascii) : list token * state :=
  let append := ([], AttributeValue q t n (snoc v c)) in
  if Ascii.eqb c "&" then ([], CharacterReference (InAttribute q t n v) "")
  else match q with
       | DoubleQuoted =>
           if Ascii.eqb c (ascii_of_nat 34)
           then ([], AfterAttributeValueQuoted (addAttribute t n v))
           else append
       | SingleQuoted =>
           if Ascii.eqb c "'"
           then ([], AfterAttributeValueQuoted (addAttribute t n v))
           else append
       | Unquoted =>
           if isWhitespace c then ([], BeforeAttributeName (addAttribute t n v))
           else if Ascii.eqb c ">" then ([TTag (addAttribute t n v)], Data)
           else append
       end.

(** The text of a reference goes where the reference was met. *)
Definition flush (k : refContext) (text : string) : list token * state :=
  match k with
  | InData => (chars text, Data)
  | InAttribute q t n v => ([], AttributeValue q t n (v +:+ text))
  end.

Definition step (st : state) (c : ascii) : list token * state :=
  match st with
  | Data => dataStep c
  | TagOpen =>
      if Ascii.eqb c "!" then ([], MarkupDeclarationOpen)
      else if Ascii.eqb c "/" then ([], EndTagOpen)
      else if isAlpha c
      then ([], TagName (Tag false (String (asciiLower c) "") [] false))
      else if Ascii.eqb c "?" then ([], BogusComment "?")
      else let '(ts, st') := dataStep c in (TChar "<" :: ts, st')
  | EndTagOpen =>
      if isAlpha c
      then ([], TagName (Tag true (String (asciiLower c) "") [] false))
      else if Ascii.eqb c ">" then ([], Data)
      else bogusCommentStep "" c
  | TagName t =>
      if isWhitespace c then ([], BeforeAttributeName t)
      else if Ascii.eqb c "/" then ([], SelfClosingStartTag t)
      else if Ascii.eqb c ">" then ([TTag t], Data)
      else ([], TagName (Tag (closing t) (snoc (tagName t) (asciiLower c))
                             (tagAttributes t) (selfClosing t)))
  | BeforeAttributeName t => beforeAttributeNameStep t c
  | AttributeName t n =>
      if isWhitespace c then ([], AfterAttributeName t n)
      else if Ascii.eqb c "/"
      then ([], SelfClosingStartTag (addAttribute t n ""))
      else if Ascii.eqb c ">" then ([TTag (addAttribute t n "")], Data)
      else if Ascii.eqb c "=" then ([], BeforeAttributeValue t n)
      else ([], AttributeName t (snoc n (asciiLower c)))
  | AfterAttributeName t n =>
      if isWhitespace c then ([], AfterAttributeName t n)
      else if Ascii.eqb c "/"
      then ([], SelfClosingStartTag (addAttribute t n ""))
      else if Ascii.eqb c "=" then ([], BeforeAttributeValue t n)
      else if Ascii.eqb c ">" then ([TTag (addAttribute t n "")], Data)
      else ([], AttributeName (addAttribute t n "")
                              (String (asciiLower c) ""))
  | BeforeAttributeValue t n =>
      if isWhitespace c then ([], BeforeAttributeValue t n)
      else if Ascii.eqb c (ascii_of_nat 34)
      then ([], AttributeValue DoubleQuoted t n "")
      else if Ascii.eqb c "'" then ([], AttributeValue SingleQuoted t n "")
      else if Ascii.eqb c ">" then ([TTag (addAttribute t n "")], Data)
      else attributeValueStep Unquoted t n "" c
  | AttributeValue q t n v => attributeValueStep q t n v c
  | AfterAttributeValueQuoted t => beforeAttributeNameStep t c
  | SelfClosingStartTag t =>
      if Ascii.eqb c ">"
      then ([TTag (Tag (closing t) (tagName t) (tagAttributes t) true)], Data)
      else beforeAttributeNameStep t c
  | MarkupDeclarationOpen =>
      if Ascii.eqb c "-" then ([], MarkupDeclarationDash)
      else bogusCommentStep "" c
  | MarkupDeclarationDash =>
      if Ascii.eqb c "-" then ([], CommentStart)
      else bogusCommentStep "-" c
  | CommentStart =>
      if Ascii.eqb c "-" then ([], CommentStartDash)
      else if Ascii.eqb c ">" then ([TComment ""], Data)
      else commentStep "" 0 c
  | CommentStartDash =>
      if Ascii.eqb c "-" then ([], Comment "" 2)
      else if Ascii.eqb c ">" then ([TComment ""], Data)
      else commentStep "-" 0 c
  | Comment s pending => commentStep s pending c
  | BogusComment s => bogusCommentStep s c
  | CharacterReference k name =>
      if isAlnum c then ([], CharacterReference k (snoc name c))
      else if Ascii.eqb c ";"
      then match JSString.assoc name namedReferences with
           | Some text => flush k text
           | None => flush k ("&" +:+ name +:+ ";")
           end
      else match k with
           | InData =>
               let '(ts, st') := dataStep c in
               ((chars ("&" +:+ name) ++ ts)%list, st')
           | InAttribute q t n v =>
               attributeValueStep q t n (v +:+ "&" +:+ name) c
           end
  end.

(** What is emitted when the input ends in a state. *)
Definition atEnd (st : state) : list token :=
  match st with
  | TagOpen => [TChar "<"]
  | EndTagOpen => [TChar "<"; TChar "/"]
  | MarkupDeclarationOpen | CommentStart | CommentStartDash => [TComment ""]
  | MarkupDeclarationDash => [TComment "-"]
  | Comment s _ => [TComment s]
  | BogusComment s => [TComment s]
  | CharacterReference InData name => chars ("&" +:+ name)
  | _ => []
  end.

Fixpoint tokenize (st : state) (s : string) : list token :=
  match s with
  | "" => atEnd st
  | String c r => let '(ts, st') := step st c in (ts ++ tokenize st' r)%list
  end.

(** The tokens of a part of the input and the state it leaves the
    tokenizer in. *)
Fixpoint feed (st : state) (s : string) : list token * state :=
  match s with
  | "" => ([], st)
  | String c r =>
      let '(ts, st') := step st c in
      let '(ts', st'') := feed st' r in
      ((ts ++ ts')%list, st'')
  end.

(** *** Tree construction *)

Definition voidElements : list string :=
  [ "area"; "base"; "br"; "col"; "embed"; "hr"; "img"; "input"; "link";
    "meta"; "source"; "track"; "wbr" ].

Definition isVoid (name : string) : bool := bool_decide (name ∈ voidElements).

(** The tokens of a [class] attribute: split at whitespace, each token
    kept once, in order of first appearance. *)
Fixpoint splitWhitespace (s cur : string) : list string :=
  match s with
  | "" => if String.eqb cur "" then [] else [cur]
  | String c r =>
      if isWhitespace c
      then if String.eqb cur "" then splitWhitespace r ""
           else cur :: splitWhitespace r ""
      else splitWhitespace r (snoc cur c)
  end.

Definition classTokens (v : string) : list string :=
  fold_left (fun l t => DOM.add t l) (splitWhitespace v "") [].

Definition elementOfTag (t : tag) (parent : nat) : DOM.element :=
  DOM.Element (tagName t)
    (match JSString.assoc "class" (tagAttributes t) with
     | Some v => classTokens v
     | None => []
     end)
    (filter (fun a => a.1 ≠ "class") (tagAttributes t))
    (Some parent) [].

(** A character goes to the text node that ends the list, or to a new
    text node. *)
Fixpoint insertCharacter (c : ascii) (cs : list DOM.child) : list DOM.child :=
  match cs with
  | [] => [DOM.CText (String c "")]
  | x :: r =>
      match r, x with
      | [], DOM.CText s => [DOM.CText (snoc s c)]
      | _, _ => x :: insertCharacter c r
      end
  end.

(** The store and the stack of open elements, innermost first; the
    element whose [innerHTML] is set lies below the stack and is never
    closed. *)
Record builder : Type := Builder {
  store : gmap nat DOM.element;
  openElements : list (nat * string)
}.

Definition currentNode (root : nat) (b : builder) : nat :=
  match openElements b with
  | (n, _) :: _ => n
  | [] => root
  end.

(** An end tag closes the innermost open element of its name and all
    elements opened inside it; with no such element it is ignored. *)
Fixpoint closeElement (name : string) (l : list (nat * string))
  : option (list (nat * string)) :=
  match l with
  | [] => None
  | (_, t) :: r => if String.eqb t name then Some r else closeElement name r
  end.

Definition treeStep (root : nat) (b : builder) (t : token) : builder :=
  let cur := currentNode root b in
  match t with
  | TChar c =>
      Builder (alter (DOM.with_childNodes (insertCharacter c)) cur (store b))
              (openElements b)
  | TComment s =>
      Builder (alter (DOM.with_childNodes (fun cs => cs ++ [DOM.CComment s])%list)
                     cur (store b))
              (openElements b)
  | TTag t =>
      if closing t
      then Builder (store b)
                   (match closeElement (tagName t) (openElements b) with
                    | Some r => r
                    | None => openElements b
                    end)
      else
        let n := fresh (dom (store b)) in
        Builder
          (<[n := elementOfTag t cur]>
             (alter (DOM.with_childNodes (fun cs => cs ++ [DOM.CElem n])%list)
                    cur (store b)))
          (if isVoid (tagName t) then openElements b
           else (n, tagName t) :: openElements b)
  end.

(** The children an element had are detached from it. *)
Definition orphan (cs : list DOM.child) (m : gmap nat DOM.element)
  : gmap nat DOM.element :=
  foldr (fun c m => match c with
                    | DOM.CElem k => alter (DOM.with_parentNode None) k m
                    | _ => m
                    end) m cs.

Definition removeChildren (n : nat) (m : gmap nat DOM.element)
  : gmap nat DOM.element :=
  match m !! n with
  | Some e => alter (DOM.with_childNodes (fun _ => [])) n (orphan (DOM.childNodes e) m)
  | None => m
  end.

(** [n.innerHTML = markup] *)
Definition set_innerHTML (n : nat) (markup : string) (d : DOM.document)
  : DOM.document :=
  DOM.with_nodes
    (fun m => store (fold_left (treeStep n) (tokenize Data markup)
                               (Builder (removeChildren n m) [])))
    d.

End HTML.

(** ** The class [SelectedTag] *)

Module BulkTagger.

Definition classTypeSuffixes : list (string * string) :=
  [ ("subjects", "--subject");
    ("subject_people", "--person");
    ("subject_places", "--place");
    ("subject_times", "--time") ].

(** The fields of an instance.  [selectedTag] is [None] while the field
    is [undefined]. *)
Record SelectedTag : Type := Instance {
  tagType : string;
  tagName : string;
  allWorksTagged : bool;
  isVisible : bool;
  selectedTag : option nat;
  LOWERCASE_TAG_NAME : string
}.

(** *** Scripts: state, exceptions and their monad *)

Inductive exception : Type :=
| TypeError      (* a property of [undefined] or [null] was read *)
| NotATree.      (* a search left the tree: the store is no document *)

Inductive completion (A : Type) : Type :=
| Normal (a : A)
| Throw (e : exception).
Arguments Normal {A} a.
Arguments Throw {A} e.

Record world : Type := World {
  this : SelectedTag;
  page : DOM.document
}.

Definition JS (A : Type) : Type := world -> completion A * world.

Definition ret {A} (a : A) : JS A := fun w => (Normal a, w).

Definition bind {A B} (m : JS A) (k : A -> JS B) : JS B :=
  fun w =>
    match m w with
    | (Normal a, w') => k a w'
    | (Throw e, w') => (Throw e, w')
    end.

Definition throw {A} (e : exception) : JS A := fun w => (Throw e, w).

Declare Scope js_scope.
Delimit Scope js_scope with js.
Notation "'let*' x ':=' m 'in' k" := (bind m (fun x => k))
  (at level 10, x name, m at level 100, k at level 200) : js_scope.
Notation "m ';;' k" := (bind m (fun _ => k))
  (at level 100, k at level 200, right associativity) : js_scope.

Definition getThis : JS SelectedTag := fun w => (Normal (this w), w).

Definition setThis (f : SelectedTag -> SelectedTag) : JS unit :=
  fun w => (Normal tt, World (f (this w)) (page w)).

Definition onPage (f : DOM.document -> DOM.document) : JS unit :=
  fun w => (Normal tt, World (this w) (f (page w))).

(** Reading a property of [r]: a [TypeError] when [r] is [undefined] or
    [null]. *)
Definition deref (r : option nat) : JS nat :=
  match r with
  | Some n => ret n
  | None => throw TypeError
  end.

Definition ofSearch (f : DOM.found) : JS (option nat) :=
  match f with
  | DOM.Found n => ret (Some n)
  | DOM.NotFound => ret None
  | DOM.Stuck => throw NotATree
  end.

Local Open Scope js_scope.

Definition createElement (name : string) : JS (option nat) :=
  fun w => let '(n, d) := DOM.createElement name (page w) in
           (Normal (Some n), World (this w) d).

Definition classList_add (r : option nat) (t : string) : JS unit :=
  let* n := deref r in
  onPage (DOM.with_nodes (alter (DOM.with_classList (DOM.add t)) n)).

Definition classList_remove (r : option nat) (t : string) : JS unit :=
  let* n := deref r in
  onPage (DOM.with_nodes (alter (DOM.with_classList (DOM.remove t)) n)).

Definition classList_toggle (r : option nat) (t : string) : JS unit :=
  let* n := deref r in
  onPage (DOM.with_nodes (alter (DOM.with_classList (DOM.toggle t)) n)).

Definition set_innerHTML (r : option nat) (markup : string) : JS unit :=
  let* n := deref r in
  onPage (HTML.set_innerHTML n markup).

Definition document_querySelector (sel : string) : JS (option nat) :=
  fun w => ofSearch (DOM.document_querySelector sel (page w)) w.

Definition querySelector (r : option nat) (sel : string) : JS (option nat) :=
  let* n := deref r in
  fun w => ofSearch (DOM.element_querySelector n sel (page w)) w.

Definition prepend (r : option nat) (c : option nat) : JS unit :=
  let* p := deref r in
  let* n := deref c in
  onPage (DOM.prepend p n).

Definition node_remove (r : option nat) : JS unit :=
  let* n := deref r in
  onPage (DOM.removeNode n).

(** *** The constructor and the methods *)

Definition constructor (tagType tagName : string) (allWorksTagged : bool)
  : SelectedTag :=
  Instance tagType tagName allWorksTagged true None
           (JSString.toLowerCase tagName).

(** The template literal of [renderAndAttach]; its second and third
    lines start with twelve spaces. *)
Definition indent : string := JSString.newline +:+ "            ".

Definition markup (self : SelectedTag) : string :=
  "<span class=" +:+ JSString.dquote
    +:+ "selected-tag__status selected-tag__status--"
    +:+ (if allWorksTagged self then "all-tagged" else "some-tagged")
    +:+ JSString.dquote +:+ "></span>" +:+ indent
  +:+ "<span class=" +:+ JSString.dquote
    +:+ "selected-tag__type selected-tag__type"
    +:+ JSString.interpolateProperty classTypeSuffixes (tagType self)
    +:+ JSString.dquote +:+ "></span>" +:+ indent
  +:+ "<span class=" +:+ JSString.dquote +:+ "selected-tag__name"
    +:+ JSString.dquote +:+ ">" +:+ tagName self +:+ "</span>".

Definition renderAndAttach : JS unit :=
  let* parentElem := createElement "div" in
  classList_add parentElem "selected-tag";;
  let* self := getThis in
  set_innerHTML parentElem (markup self);;
  let* selectedTagsElem := document_querySelector ".selected-tag-subjects" in
  prepend selectedTagsElem parentElem;;
  setThis (fun s => Instance (tagType s) (tagName s) (allWorksTagged s)
                             (isVisible s) parentElem (LOWERCASE_TAG_NAME s)).

Definition remove : JS unit :=
  let* self := getThis in
  node_remove (selectedTag self).

Definition updateAllWorksTagged (allWorksTagged' : bool) : JS unit :=
  setThis (fun s => Instance (tagType s) (tagName s) allWorksTagged'
                             (isVisible s) (selectedTag s)
                             (LOWERCASE_TAG_NAME s));;
  let* self := getThis in
  let* statusIndicator :=
    querySelector (selectedTag self) ".selected-tag__status" in
  if allWorksTagged'
  then classList_remove statusIndicator "selected-tag__status--some-tagged";;
       classList_add statusIndicator "selected-tag__status--all-tagged"
  else classList_remove statusIndicator "selected-tag__status--all-tagged";;
       classList_add statusIndicator "selected-tag__status--some-tagged".

Definition set_isVisible (b : bool) : JS unit :=
  setThis (fun s => Instance (tagType s) (tagName s) (allWorksTagged s) b
                             (selectedTag s) (LOWERCASE_TAG_NAME s)).

Definition hide : JS unit :=
  let* self := getThis in
  classList_add (selectedTag self) "hidden";;
  set_isVisible false.

Definition show : JS unit :=
  let* self := getThis in
  classList_remove (selectedTag self) "hidden";;
  set_isVisible true.

Definition toggleVisibility : JS unit :=
  let* self := getThis in
  classList_toggle (selectedTag self) "hidden";;
  let* self := getThis in
  set_isVisible (negb (isVisible self)).

Definition tagNameStartsWith (searchString : string) : JS bool :=
  let* self := getThis in
  ret (JSString.startsWith (LOWERCASE_TAG_NAME self)
                           (JSString.toLowerCase searchString)).

(** *** The controller's side: sequences of calls

    The controller calls the methods one after the other, each from an
    event handler of its own: an exception ends the handler that made the
    call, and the next call finds the state the failed one left. *)

Inductive call : Type :=
| RenderAndAttach
| Remove
| UpdateAllWorksTagged (b : bool)
| Hide
| Show
| ToggleVisibility.

Definition perform (c : call) : JS unit :=
  match c with
  | RenderAndAttach => renderAndAttach
  | Remove => remove
  | UpdateAllWorksTagged b => updateAllWorksTagged b
  | Hide => hide
  | Show => show
  | ToggleVisibility => toggleVisibility
  end.

(** The calls of [cs] in one script: the first exception ends it. *)
Fixpoint performAll (cs : list call) : JS unit :=
  match cs with
  | [] => ret tt
  | c :: r => perform c;; performAll r
  end.

(** The calls of [cs] from separate handlers: the completions, in
    order, and the state after the last. *)
Fixpoint handle (cs : list call) (w : world)
  : list (completion unit) * world :=
  match cs with
  | [] => ([], w)
  | c :: r =>
      let '(k, w') := perform c w in
      let '(ks, w'') := handle r w' in
      (k :: ks, w'')
  end.

(** The argument of the last [updateAllWorksTagged] of [cs], or [b]. *)
Fixpoint lastUpdate (b : bool) (cs : list call) : bool :=
  match cs with
  | [] => b
  | UpdateAllWorksTagged b' :: r => lastUpdate b' r
  | _ :: r => lastUpdate b r
  end.

Definition isRender (c : call) : bool :=
  match c with RenderAndAttach => true | _ => false end.

Definition isNormal {A} (k : completion A) : bool :=
  match k with Normal _ => true | Throw _ => false end.

(** Whether some [renderAndAttach] of [cs] returned normally, [ks]
    being the completions of the calls. *)
Definition renderedNormally (cs : list call) (ks : list (completion unit))
  : bool :=
  existsb (fun p => isRender p.1 && isNormal p.2) (zip cs ks).

(** The specification's account of the handle: set by a call of
    [renderAndAttach], unset by a later call of [remove]. *)
Fixpoint mountedBySpec (mounted : bool) (cs : list call) : bool :=
  match cs with
  | [] => mounted
  | RenderAndAttach :: r => mountedBySpec true r
  | Remove :: r => mountedBySpec false r
  | _ :: r => mountedBySpec mounted r
  end.

End BulkTagger.

(** ** The build script [vite.config.mjs] *)

Module ViteConfig.

(** [path.join(a, b)] for the relative paths of the script, which have
    no [..] and no doubled separator: the segments are joined with a
    slash and a leading [./] goes away. *)
Definition join (a b : string) : string :=
  let p := a +:+ "/" +:+ b in
  if JSString.startsWith p "./" then JSString.skip 2 p else p.

Definition BUILD_DIR : string := "./static/build".
Definition PRODUCTION_DIR : string := join BUILD_DIR "components/production".

(** [getComponentNames], from the listing [readdirSync] returns. *)
Definition getComponentNames (files : list string) : list string :=
  map (fun name => JSString.replace name ".vue" "")
      (filter (fun name => JSString.includes name ".vue" = true) files).

(** The specification's account of the selection: the files whose name
    ends with [.vue], each without that extension. *)
Definition componentNamesBySuffix (files : list string) : list string :=
  map (fun name => String.substring 0 (String.length name - 4) name)
      (filter (fun name => JSString.endsWith name ".vue" = true) files).

(** The file system the script writes to: the files, and the paths at
    which [writeFileSync] fails. *)
Record filesystem : Type := FileSystem {
  contents : gmap string string;
  refused : list string
}.

Definition writeFileSync (path data : string) (fs : filesystem)
  : option filesystem :=
  if bool_decide (path ∈ refused fs) then None
  else Some (FileSystem (<[path := data]> (contents fs)) (refused fs)).

Definition component_path : string := "../../openlibrary/components".

Definition template (componentName : string) : string :=
  JSString.newline
  +:+ "import { createWebComponentSimple } from '" +:+ component_path
  +:+ "/rollupInputCore.js';" +:+ JSString.newline
  +:+ "import rootComponent from '" +:+ component_path +:+ "/"
  +:+ componentName +:+ ".vue';" +:+ JSString.newline
  +:+ "createWebComponentSimple(rootComponent, '" +:+ componentName +:+ "');".

Definition entryPath (componentName : string) : string :=
  join BUILD_DIR ("vue-tmp-" +:+ componentName +:+ ".js").

(** [generateViteEntryFile]: [None] is [process.exit(1)], after the
    message on the console. *)
Definition generateViteEntryFile (componentName : string) (fs : filesystem)
  : option filesystem :=
  writeFileSync (entryPath componentName) (template componentName) fs.

(** [componentNames.forEach(generateViteEntryFile)] *)
Fixpoint generateAll (names : list string) (fs : filesystem)
  : option filesystem :=
  match names with
  | [] => Some fs
  | n :: r =>
      match generateViteEntryFile n fs with
      | Some fs' => generateAll r fs'
      | None => None
      end
  end.

(** The object [input]: one property per component name.  (Assigning a
    string to [__proto__] adds no property.) *)
Definition inputOf (names : list string) : gmap string string :=
  fold_left (fun o n => if String.eqb n "__proto__" then o
                        else <[n := entryPath n]> o)
            names ∅.

Record rollupOutput : Type := RollupOutput {
  entryFileNames : string;
  format : string
}.

Record config : Type := Config {
  outDir : string;
  input : gmap string string;
  output : rollupOutput
}.

(** The module as a whole: the exit code 1, or the exported
    configuration, with the file system it leaves. *)
Inductive result : Type :=
| Exit (code : nat)
| Exports (c : config) (fs : filesystem).

Definition main (files : list string) (fs : filesystem) : result :=
  let componentNames := getComponentNames files in
  match generateAll componentNames fs with
  | None => Exit 1
  | Some fs' =>
      Exports (Config PRODUCTION_DIR (inputOf componentNames)
                      (RollupOutput "ol-[name].js" "es"))
              fs'
  end.

(** Rollup names the file of the entry [name] by the pattern. *)
Definition entryFileName (pattern name : string) : string :=
  JSString.replace pattern "[name]" name.

End ViteConfig.

(** ** What rendering establishes and the calls keep *)

Module Invariants.
Import DOM HTML BulkTagger.

(** The class of the status marker for a value of [allWorksTagged]. *)
Definition statusClass (allWorksTagged : bool) : string :=
  "selected-tag__status--"
  +:+ (if allWorksTagged then "all-tagged" else "some-tagged").

(** The first tag of the markup, and what follows it. *)
Definition statusMarkup (allWorksTagged : bool) : string :=
  "<span class=" +:+ JSString.dquote +:+ "selected-tag__status "
  +:+ statusClass allWorksTagged +:+ JSString.dquote +:+ "></span>".

Definition typeMarkup (suffix : string) : string :=
  "<span class=" +:+ JSString.dquote
  +:+ "selected-tag__type selected-tag__type" +:+ suffix
  +:+ JSString.dquote +:+ "></span>".

Definition statusElement (allWorksTagged : bool) (parent : nat) : element :=
  Element "span" ["selected-tag__status"; statusClass allWorksTagged] []
          (Some parent) [].

Definition typeElement (modifier : string) (parent : nat) : element :=
  Element "span" ["selected-tag__type"; "selected-tag__type" +:+ modifier] []
          (Some parent) [].

Definition rootElement (parent : option nat) (kids : list child) : element :=
  Element "div" ["selected-tag"] [] parent kids.

(** The builder between two children of the element being filled: the
    elements of [F] are in the store as they are in [F], the element
    being filled is [e] with the children [kids], no element is open. *)
Definition atTop (root : nat) (F : gmap nat element) (e : element)
    (kids : list child) (b : builder) : Prop :=
  (∀ i x, F !! i = Some x → store b !! i = Some x)
  ∧ F !! root = None
  ∧ store b !! root = Some (with_childNodes (fun _ => kids) e)
  ∧ openElements b = [].

(** The builder anywhere after the children [pre] were finished: what
    comes later is added behind them, and to elements outside [F]. *)
Definition built (root : nat) (F : gmap nat element) (e : element)
    (pre : list child) (b : builder) : Prop :=
  (∀ i x, F !! i = Some x → store b !! i = Some x)
  ∧ F !! root = None
  ∧ (∃ more, store b !! root = Some (with_childNodes (fun _ => pre ++ more)%list e))
  ∧ (∀ p, p ∈ openElements b → F !! p.1 = None ∧ p.1 ≠ root).

(** The children after the characters of [s] were inserted. *)
Fixpoint insertText (s : string) (kids : list child) : list child :=
  match s with
  | "" => kids
  | String c r => insertText r (insertCharacter c kids)
  end.

(** Text that the parser reads as character data and leaves as it is:
    no [<] and no [&], which the tokenizer acts on, and no carriage
    return and no U+0000, which a browser replaces by a line feed and
    drops where the model of the parser keeps them. *)
Fixpoint plain (s : string) : bool :=
  match s with
  | "" => true
  | String c r =>
      negb (Ascii.eqb c "<") && negb (Ascii.eqb c "&")
      && negb (Ascii.eqb c "013") && negb (Ascii.eqb c "000") && plain r
  end.

(** The markup before the tag name, and the label element. *)
Definition beforeName (allWorksTagged : bool) (suffix : string) : string :=
  statusMarkup allWorksTagged +:+ indent +:+ typeMarkup suffix +:+ indent
  +:+ "<span class=" +:+ JSString.dquote +:+ "selected-tag__name"
  +:+ JSString.dquote +:+ ">".

Definition nameElement (name : string) (parent : nat) : element :=
  Element "span" ["selected-tag__name"] [] (Some parent) (insertText name []).

(** A list of children that a later character cannot extend. *)
Definition closed (pre : list child) : Prop :=
  pre = [] ∨ ∃ pre' n, pre = (pre' ++ [CElem n])%list.

(** An instance whose element [r] was rendered into the container [c],
    with the status marker [sid]. *)
Definition mounted (r sid c : nat) (w : world) : Prop :=
  selectedTag (this w) = Some r ∧ r ≠ sid ∧ c ≠ r ∧ c ≠ sid
  ∧ ∃ er es,
      nodes (page w) !! r = Some er
      ∧ head (childNodes er) = Some (CElem sid)
      ∧ (parentNode er = None ∨ parentNode er = Some c)
      ∧ nodes (page w) !! sid = Some es
      ∧ classList es
        = ["selected-tag__status"; statusClass (allWorksTagged (this w))]
      ∧ isVisible (this w) = negb (contains "hidden" (classList er)).

End Invariants.

(** ** A page and a components directory to run the code on *)

Module Example.

(** [<html><body><div class="selected-tag-subjects"></div></body></html>] *)
Definition page : DOM.document :=
  DOM.Document
    (<[0 := DOM.Element "html" [] [] None [DOM.CElem 1]]>
       (<[1 := DOM.Element "body" [] [] (Some 0) [DOM.CElem 2]]>
          (<[2 := DOM.Element "div" ["selected-tag-subjects"] [] (Some 1) []]>
             ∅)))
    0.

Definition fantasy : BulkTagger.world :=
  BulkTagger.World (BulkTagger.constructor "subjects" "Fantasy" false) page.

Definition genre : BulkTagger.world :=
  BulkTagger.World (BulkTagger.constructor "genre" "Fantasy" false) page.

Definition escaped : BulkTagger.world :=
  BulkTagger.World
    (BulkTagger.constructor "subjects" "Fantasy &amp; <span>Sci-Fi</span>" true)
    page.

Definition directory : list string :=
  [ "BulkSearch.vue"; "Chart.vue.bak"; "README.md"; "rollupInputCore.js" ].

Definition disk : ViteConfig.filesystem := ViteConfig.FileSystem ∅ [].

End Example.

(** ** More pages and directories to run the code on *)

Module Sample.

(** A page without the container: [<html><body>Books</body></html>]. *)
Definition bare : DOM.document :=
  DOM.Document
    (<[0 := DOM.Element "html" [] [] None [DOM.CElem 1]]>
       (<[1 := DOM.Element "body" [] [] (Some 0) [DOM.CText "Books"]]> ∅))
    0.

(** A page whose container has a child already. *)
Definition busy : DOM.document :=
  DOM.Document
    (<[0 := DOM.Element "html" [] [] None [DOM.CElem 1]]>
       (<[1 := DOM.Element "body" [] [] (Some 0)
                  [DOM.CText "Books"; DOM.CElem 2]]>
          (<[2 := DOM.Element "div" ["selected-tag-subjects"] [] (Some 1)
                     [DOM.CElem 3]]>
             (<[3 := DOM.Element "p" [] [] (Some 2) [DOM.CText "Tags"]]> ∅))))
    0.

(** A file name in which [.vue] occurs, if at all, only as the extension
    at its end. *)
Definition vueOnlyAsExtension (name : string) : bool :=
  negb (JSString.includes name ".vue")
  || (JSString.endsWith name ".vue"
      && negb (JSString.includes
                 (String.substring 0 (String.length name - 4) name) ".vue")).

Definition components : list string :=
  [ "BulkSearch.vue"; "LibraryExplorer.vue"; "README.md";
    "rollupInputCore.js" ].

End Sample.

(** * Properties *)

Local Open Scope list_scope.
Local Open Scope nat_scope.

(** ** Strings *)

Module StringFacts.
Import JSString.

Lemma startsWith_refl (s : string) : startsWith s s = true.
Proof. induction s as [|c s IH]; simpl; [done|]. by rewrite Ascii.eqb_refl. Qed.

Lemma startsWith_empty (s : string) : startsWith s "" = true.
Proof. by destruct s. Qed.

Lemma startsWith_append (p t : string) : startsWith (p +:+ t) p = true.
Proof.
  induction p as [|c p IH]; simpl; [by destruct t|]. by rewrite Ascii.eqb_refl.
Qed.

Lemma startsWith_prefix (s p : string) :
  startsWith s p = true ↔ ∃ t, s = p +:+ t.
Proof.
  split.
  - revert s. induction p as [|b p IH]; intros s H.
    + by exists s.
    + destruct s as [|a s]; simpl in H; [done|].
      destruct (Ascii.eqb_spec a b) as [->|]; [|done].
      destruct (IH _ H) as [t ->]. by exists t.
  - intros [t ->]. apply startsWith_append.
Qed.

End StringFacts.

(** ** What the methods do to the fields of the instance *)

Module Frame.
Import BulkTagger.

Ltac js_unfold :=
  repeat progress
    (cbv beta iota zeta delta
       [ bind ret throw getThis setThis onPage deref ofSearch createElement
         classList_add classList_remove classList_toggle set_innerHTML
         document_querySelector querySelector prepend node_remove
         set_isVisible renderAndAttach remove updateAllWorksTagged hide show
         toggleVisibility tagNameStartsWith perform ];
     cbn [ fst snd this page tagType tagName allWorksTagged isVisible
           selectedTag LOWERCASE_TAG_NAME ]).

Ltac js_cases :=
  repeat (js_unfold;
          match goal with
          | |- context [DOM.element_querySelector ?n ?s ?d] =>
              destruct (DOM.element_querySelector n s d)
          | |- context [DOM.document_querySelector ?s ?d] =>
              destruct (DOM.document_querySelector s d)
          | |- context [if ?b then _ else _] => is_var b; destruct b
          end);
  js_unfold.

(** [renderAndAttach] either throws, the instance being as it was, or
    returns with the handle set to the element it created. *)
Lemma render_cases (w : world) :
  let n := fresh (dom (DOM.nodes (page w))) in
  (∃ e w', renderAndAttach w = (Throw e, w') ∧ this w' = this w)
  ∨ (∃ d', renderAndAttach w =
       (Normal tt,
        World (Instance (tagType (this w)) (tagName (this w))
                        (allWorksTagged (this w)) (isVisible (this w))
                        (Some n) (LOWERCASE_TAG_NAME (this w))) d')).
Proof.
  destruct w as [s d]. js_unfold. unfold DOM.createElement. js_cases; eauto.
Qed.

Lemma perform_handle (c : call) (w : world) :
  c ≠ RenderAndAttach →
  selectedTag (this (perform c w).2) = selectedTag (this w).
Proof.
  intros Hc. destruct w as [[tt tn a v [n|] l] d]; destruct c; try done;
    js_cases; done.
Qed.

Lemma perform_names (c : call) (w : world) :
  tagType (this (perform c w).2) = tagType (this w)
  ∧ tagName (this (perform c w).2) = tagName (this w)
  ∧ LOWERCASE_TAG_NAME (this (perform c w).2) = LOWERCASE_TAG_NAME (this w).
Proof.
  destruct c.
  { cbn [perform].
    destruct (render_cases w) as [(e & w' & -> & Ht)|[d' ->]];
      cbn [snd this]; [by rewrite Ht|done]. }
  all: destruct w as [[tt tn a v [n|] l] d]; js_cases; done.
Qed.

Lemma handle_names (cs : list call) (w : world) :
  tagName (this (handle cs w).2) = tagName (this w)
  ∧ LOWERCASE_TAG_NAME (this (handle cs w).2) = LOWERCASE_TAG_NAME (this w).
Proof.
  revert w. induction cs as [|c cs IH]; intros w; simpl; [done|].
  destruct (perform c w) as [k w'] eqn:Hp.
  destruct (handle cs w') as [ks w''] eqn:Hh. simpl.
  specialize (IH w'). rewrite Hh in IH. simpl in IH.
  pose proof (perform_names c w) as Hn. rewrite Hp in Hn. simpl in Hn.
  destruct IH as [-> ->]. by destruct Hn as (_ & -> & ->).
Qed.

Lemma handle_mounted (cs : list call) (w : world) :
  is_Some (selectedTag (this (handle cs w).2))
  ↔ is_Some (selectedTag (this w))
    ∨ renderedNormally cs (handle cs w).1 = true.
Proof.
  revert w. induction cs as [|c cs IH]; intros w; simpl.
  { unfold renderedNormally. simpl. split; [by left|by intros [?|?]]. }
  destruct (perform c w) as [k w'] eqn:Hp.
  destruct (handle cs w') as [ks w''] eqn:Hh. simpl.
  specialize (IH w'). rewrite Hh in IH. simpl in IH. rewrite IH.
  unfold renderedNormally in *. simpl.
  destruct (isRender c) eqn:Hc; [destruct c; try done|].
  - simpl in Hp. destruct (render_cases w) as [(e & w1 & Hr & Ht)|[d' Hr]];
      rewrite Hr in Hp; simplify_eq; simpl.
    + by rewrite Ht.
    + split; [intros _|intros _; left]; eauto.
  - assert (c ≠ RenderAndAttach) as Hne by (by intros ->).
    pose proof (perform_handle c w Hne) as Hh'. rewrite Hp in Hh'.
    simpl in Hh'. by rewrite Hh'.
Qed.

End Frame.

(** ** Searching the tree *)

Module Search.
Import DOM.

Lemma scan_mono (m m' : gmap nat element) (sel : string)
    (deeper deeper' : list child → found) (cs : list child) (r : found) :
  (∀ i x, m !! i = Some x → m' !! i = Some x) →
  (∀ cs r, r ≠ Stuck → deeper cs = r → deeper' cs = r) →
  r ≠ Stuck → scan m sel deeper cs = r → scan m' sel deeper' cs = r.
Proof.
  intros Hm Hd Hr. induction cs as [|[n|s|s] cs IH]; simpl; auto.
  destruct (m !! n) as [e|] eqn:E; [|congruence]. rewrite (Hm _ _ E).
  destruct (matches sel e); [done|].
  destruct (deeper (childNodes e)) eqn:D.
  - by rewrite (Hd _ (Found n0)).
  - rewrite (Hd _ NotFound); auto.
  - congruence.
Qed.

Lemma descend_mono (m m' : gmap nat element) (sel : string) (f f' : nat)
    (cs : list child) (r : found) :
  (∀ i x, m !! i = Some x → m' !! i = Some x) →
  (f ≤ f')%nat → r ≠ Stuck →
  descend m sel f cs = r → descend m' sel f' cs = r.
Proof.
  intros Hm. revert f' cs r. induction f as [|f IH]; intros f' cs r Hf Hr.
  - simpl. congruence.
  - destruct f' as [|f']; [lia|]. simpl. apply scan_mono; auto.
    intros cs' r' Hr'. apply IH; [lia|done].
Qed.

Lemma scan_Found (m : gmap nat element) (sel : string)
    (deeper : list child → found) (P : nat → Prop) (cs : list child) (n : nat) :
  (∀ cs n, deeper cs = Found n → P n) →
  (∀ n e, m !! n = Some e → matches sel e = true → P n) →
  scan m sel deeper cs = Found n → P n.
Proof.
  intros Hd Hp. induction cs as [|[k|s|s] cs IH]; simpl; auto; [done|].
  destruct (m !! k) as [e|] eqn:E; [|done].
  destruct (matches sel e) eqn:M; [intros [= <-]; eauto|].
  destruct (deeper (childNodes e)) eqn:D; [intros [= <-]; eauto|auto|done].
Qed.

Lemma descend_Found (m : gmap nat element) (sel : string) (f : nat)
    (cs : list child) (n : nat) :
  descend m sel f cs = Found n →
  ∃ e, m !! n = Some e ∧ matches sel e = true.
Proof.
  revert cs n. induction f as [|f IH]; intros cs n; simpl; [done|].
  apply (scan_Found m sel (descend m sel f)
           (fun n => ∃ e, m !! n = Some e ∧ matches sel e = true)); eauto.
Qed.

End Search.

(** ** The tree builder *)

Module Building.
Import DOM HTML Invariants.

Lemma insertCharacter_cons (c : ascii) (x : child) (r : list child) :
  r ≠ [] ∨ (∃ n, x = CElem n) ∨ (∃ s, x = CComment s) →
  insertCharacter c (x :: r) = x :: insertCharacter c r.
Proof.
  intros H. simpl. destruct r; [|done].
  destruct H as [?|[[n ->]|[s ->]]]; done.
Qed.

Lemma insertCharacter_closed (c : ascii) (pre more : list child) :
  closed pre →
  insertCharacter c (pre ++ more) = pre ++ insertCharacter c more.
Proof.
  intros [->|(pre' & n & ->)]; [done|].
  induction pre' as [|x p IH].
  - apply insertCharacter_cons. eauto.
  - rewrite <- !app_comm_cons, <- IH. apply insertCharacter_cons.
    left. by destruct p.
Qed.

Lemma closeElement_sub (name : string) (l r : list (nat * string)) :
  closeElement name l = Some r → ∀ p, p ∈ r → p ∈ l.
Proof.
  revert r. induction l as [|[n t] l IH]; intros r; simpl; [done|].
  destruct (String.eqb t name).
  - intros [= <-] p Hp. by right.
  - intros H p Hp. right. eauto.
Qed.

Lemma treeStep_built (root : nat) (F : gmap nat element) (e : element)
    (pre : list child) (b : builder) (t : token) :
  closed pre → built root F e pre b → built root F e pre (treeStep root b t).
Proof.
  intros Hc (HF & Hr & (more & Hroot) & Hopen).
  assert (F !! currentNode root b = None) as Hcur.
  { unfold currentNode. destruct (openElements b) as [|[n s] l] eqn:E; [done|].
    apply (Hopen (n, s)). by left. }
  assert (currentNode root b = root ∨ currentNode root b ≠ root) as Hd
    by (destruct (decide (currentNode root b = root)); auto).
  destruct t as [c|t|s]; simpl.
  - split_and!; simpl; auto.
    + intros i x Hi. rewrite lookup_alter_ne; [auto|congruence].
    + destruct Hd as [->|Hd].
      * exists (insertCharacter c more). rewrite lookup_alter_eq, Hroot. simpl.
        unfold with_childNodes. simpl. by rewrite insertCharacter_closed.
      * exists more. by rewrite lookup_alter_ne.
  - destruct (closing t).
    + split_and!; simpl; eauto.
      intros p Hp. apply Hopen.
      destruct (closeElement (tagName t) (openElements b)) eqn:E; [|done].
      eapply closeElement_sub; eauto.
    + set (n := fresh (dom (store b))).
      assert (store b !! n = None) as Hn
        by (apply not_elem_of_dom, is_fresh).
      assert (F !! n = None) as HFn.
      { destruct (F !! n) eqn:E; [|done]. apply HF in E. congruence. }
      assert (n ≠ root) as Hnr by congruence.
      split_and!; simpl; auto.
      * intros i x Hi. rewrite lookup_insert_ne by congruence.
        rewrite lookup_alter_ne; [auto|congruence].
      * rewrite lookup_insert_ne by done. destruct Hd as [->|Hd].
        -- exists (more ++ [CElem n])%list. rewrite lookup_alter_eq, Hroot. simpl.
           unfold with_childNodes. simpl. by rewrite app_assoc.
        -- exists more. by rewrite lookup_alter_ne.
      * intros p Hp. destruct (isVoid (tagName t)); [auto|].
        apply elem_of_cons in Hp as [->|Hp]; auto.
  - split_and!; simpl; auto.
    + intros i x Hi. rewrite lookup_alter_ne; [auto|congruence].
    + destruct Hd as [->|Hd].
      * exists (more ++ [CComment s])%list. rewrite lookup_alter_eq, Hroot. simpl.
        unfold with_childNodes. simpl. by rewrite app_assoc.
      * exists more. by rewrite lookup_alter_ne.
Qed.

Lemma fold_built (root : nat) (F : gmap nat element) (e : element)
    (pre : list child) (ts : list token) (b : builder) :
  closed pre → built root F e pre b →
  built root F e pre (fold_left (treeStep root) ts b).
Proof.
  intros Hc. revert b. induction ts as [|t ts IH]; intros b Hb; simpl; [done|].
  apply IH. by apply treeStep_built.
Qed.

Lemma atTop_built (root : nat) (F : gmap nat element) (e : element)
    (kids : list child) (b : builder) :
  atTop root F e kids b → built root F e kids b.
Proof.
  intros (HF & Hr & Hroot & Hopen). split_and!; auto.
  - exists []. by rewrite app_nil_r.
  - rewrite Hopen. intros p Hp. by apply elem_of_nil in Hp.
Qed.

Lemma atTop_char (root : nat) (F : gmap nat element) (e : element)
    (kids : list child) (b : builder) (c : ascii) :
  atTop root F e kids b →
  atTop root F e (insertCharacter c kids) (treeStep root b (TChar c)).
Proof.
  intros (HF & Hr & Hroot & Hopen). unfold treeStep, currentNode.
  rewrite Hopen. split_and!; simpl; auto.
  - intros i x Hi. rewrite lookup_alter_ne; [auto|congruence].
  - by rewrite lookup_alter_eq, Hroot.
Qed.

Lemma atTop_chars (root : nat) (F : gmap nat element) (e : element)
    (s : string) (kids : list child) (b : builder) :
  atTop root F e kids b →
  atTop root F e (insertText s kids) (fold_left (treeStep root) (chars s) b).
Proof.
  revert kids b. induction s as [|c s IH]; intros kids b Hb; simpl; [done|].
  apply IH. by apply atTop_char.
Qed.

Lemma atTop_element (root : nat) (F : gmap nat element) (e : element)
    (kids : list child) (b : builder) (t t' : tag) :
  closing t = false → isVoid (tagName t) = false →
  closing t' = true → tagName t' = tagName t →
  atTop root F e kids b →
  let n := fresh (dom (store b)) in
  F !! n = None ∧ n ≠ root
  ∧ atTop root (<[n := elementOfTag t root]> F) e (kids ++ [CElem n])
      (treeStep root (treeStep root b (TTag t)) (TTag t')).
Proof.
  intros Ht Hv Ht' Hn (HF & Hr & Hroot & Hopen) n.
  assert (store b !! n = None) as Hfresh by (apply not_elem_of_dom, is_fresh).
  assert (F !! n = None) as HFn.
  { destruct (F !! n) eqn:E; [|done]. apply HF in E. congruence. }
  assert (n ≠ root) as Hnr by congruence.
  split; [done|]. split; [done|].
  unfold treeStep at 2. unfold currentNode. rewrite Hopen, Ht, Hv.
  fold n. unfold treeStep. simpl. rewrite Ht', Hn. simpl.
  rewrite String.eqb_refl.
  split_and!; simpl; auto.
  - intros i x. destruct (decide (n = i)) as [<-|Hi].
    + by rewrite !lookup_insert_eq.
    + rewrite !lookup_insert_ne by done. intros Hx.
      rewrite lookup_alter_ne; [auto|congruence].
  - by rewrite lookup_insert_ne.
  - rewrite lookup_insert_ne by done. by rewrite lookup_alter_eq, Hroot.
Qed.

End Building.

(** ** Rendering *)

Module Rendering.
Import DOM HTML BulkTagger Invariants Frame Search Building.

Lemma tokenize_feed (a b : string) (st : state) :
  tokenize st (a +:+ b) = (feed st a).1 ++ tokenize (feed st a).2 b.
Proof.
  revert st. induction a as [|c a IH]; intros st; simpl; [done|].
  destruct (step st c) as [ts st']. rewrite IH.
  destruct (feed st' a) as [ts' st'']. simpl. by rewrite app_assoc.
Qed.

Lemma markup_status (s : SelectedTag) :
  ∃ rest, markup s = statusMarkup (allWorksTagged s) +:+ rest.
Proof. eexists. unfold markup. destruct (allWorksTagged s); reflexivity. Qed.

Lemma feed_status (b : bool) :
  feed Data (statusMarkup b)
  = ([ TTag (Tag false "span"
              [("class", "selected-tag__status " +:+ statusClass b)] false);
       TTag (Tag true "span" [] false) ], Data).
Proof. destruct b; vm_compute; reflexivity. Qed.

Lemma new_root (r : nat) (m : gmap nat element) :
  m !! r = None →
  removeChildren r
    (alter (with_classList (add "selected-tag")) r
       (<[r := Element "div" [] [] None []]> m))
  = <[r := rootElement None []]> m.
Proof.
  intros Hr. rewrite alter_insert_eq. unfold removeChildren.
  rewrite lookup_insert_eq. simpl. by rewrite alter_insert_eq.
Qed.

Lemma atTop_new (r : nat) (m : gmap nat element) :
  m !! r = None →
  atTop r m (rootElement None []) [] (Builder (<[r := rootElement None []]> m) []).
Proof.
  intros Hr. split_and!; simpl; auto.
  - intros i x Hi. rewrite lookup_insert_ne; [done|congruence].
  - by rewrite lookup_insert_eq.
Qed.

Lemma render_built (s : SelectedTag) (d : document) (c : nat)
    (F : gmap nat element) (pre : list child) (ts1 ts2 : list token) :
  DOM.document_querySelector ".selected-tag-subjects" d = Found c →
  let r := fresh (dom (nodes d)) in
  tokenize Data (markup s) = ts1 ++ ts2 →
  atTop r F (rootElement None []) pre
    (fold_left (treeStep r) ts1
       (Builder (<[r := rootElement None []]> (nodes d)) [])) →
  closed pre →
  (∀ i x, nodes d !! i = Some x → F !! i = Some x) →
  ∃ d' more ec,
    renderAndAttach (World s d)
    = (Normal tt,
       World (Instance (tagType s) (tagName s) (allWorksTagged s)
                       (isVisible s) (Some r) (LOWERCASE_TAG_NAME s)) d')
    ∧ documentElement d' = documentElement d
    ∧ nodes d !! c = Some ec
    ∧ nodes d' !! c = Some (with_childNodes (cons (CElem r)) ec)
    ∧ nodes d' !! r = Some (rootElement (Some c) (pre ++ more))
    ∧ (∀ i x, F !! i = Some x → i ≠ c → nodes d' !! i = Some x)
    ∧ c ≠ r ∧ nodes d !! r = None
    ∧ (ts2 = [] → more = []).
Proof.
  intros Hq r Htok Htop Hpre HF.
  assert (nodes d !! r = None) as Hr by (apply not_elem_of_dom, is_fresh).
  destruct (descend_Found _ _ _ _ _ Hq) as (ec & Hc & _).
  assert (c ≠ r) as Hcr by congruence.
  pose proof Htop as (_ & _ & Hexact & _).
  apply atTop_built in Htop.
  apply (fold_built _ _ _ _ ts2) in Htop; [|done].
  destruct Htop as (HF' & HFr & (more & Hroot) & _).
  assert (ts2 = [] → more = []) as Hmore.
  { intros ->. simpl in Hroot. rewrite Hexact in Hroot.
    injection Hroot as Hroot. rewrite <- (app_nil_r pre) in Hroot at 1.
    by apply app_inv_head in Hroot. }
  rewrite <- fold_left_app, <- Htok in HF', Hroot.
  set (m2 := store (fold_left (treeStep r) (tokenize Data (markup s))
                      (Builder (<[r := rootElement None []]> (nodes d)) []))) in *.
  assert (DOM.document_querySelector ".selected-tag-subjects"
            (Document m2 (documentElement d)) = Found c) as Hq2.
  { unfold DOM.document_querySelector in *. cbn [nodes documentElement].
    eapply descend_mono; [| |done|exact Hq].
    - intros i x Hi. auto.
    - unfold bound. cbn [nodes]. apply le_n_S. apply map_subseteq_size.
      apply map_subseteq_spec. auto. }
  exists (DOM.prepend c r (Document m2 (documentElement d))), more, ec.
  split_and!; auto.
  - destruct d as [m root]. simpl in *. js_unfold. unfold DOM.createElement.
    js_unfold. unfold HTML.set_innerHTML, with_nodes. simpl.
    fold r. rewrite new_root by done. fold m2. rewrite Hq2. js_unfold. done.
  - unfold DOM.prepend, removeNode. simpl. by rewrite Hroot.
  - unfold DOM.prepend, removeNode. simpl. rewrite Hroot. simpl.
    rewrite lookup_alter_ne by done. rewrite lookup_alter_eq.
    rewrite (HF' c ec); auto.
  - unfold DOM.prepend, removeNode. simpl. rewrite Hroot. simpl.
    rewrite lookup_alter_eq, lookup_alter_ne by done. by rewrite Hroot.
  - intros i x Hi Hic. unfold DOM.prepend, removeNode. simpl. rewrite Hroot.
    simpl. assert (i ≠ r) by congruence.
    rewrite !lookup_alter_ne by done. auto.
Qed.

End Rendering.

(** ** Token lists *)

Module Tokens.
Import DOM.

Lemma contains_true (t : string) (l : list string) : contains t l = true ↔ t ∈ l.
Proof. unfold contains. apply bool_decide_eq_true. Qed.

Lemma contains_false (t : string) (l : list string) : contains t l = false ↔ t ∉ l.
Proof. unfold contains. apply bool_decide_eq_false. Qed.

Lemma remove_absent (t : string) (l : list string) : t ∉ l → remove t l = l.
Proof.
  intros H. unfold remove. induction l as [|x l IH]; [done|].
  apply not_elem_of_cons in H as [Hx Hl].
  rewrite filter_cons_True by done. by rewrite IH.
Qed.

Lemma contains_add (t : string) (l : list string) : contains t (add t l) = true.
Proof.
  unfold add. destruct (contains t l) eqn:E; [done|].
  apply contains_true, elem_of_app. right. by left.
Qed.

Lemma contains_remove (t : string) (l : list string) :
  contains t (remove t l) = false.
Proof.
  apply contains_false. unfold remove. rewrite list_elem_of_filter. tauto.
Qed.

Lemma contains_toggle (t : string) (l : list string) :
  contains t (toggle t l) = negb (contains t l).
Proof.
  unfold toggle. destruct (contains t l) eqn:E; simpl.
  - apply contains_remove.
  - apply contains_true, elem_of_app. right. by left.
Qed.

Lemma add_present (t : string) (l : list string) :
  contains t l = true → add t l = l.
Proof. unfold add. by intros ->. Qed.

Lemma remove_not_contained (t : string) (l : list string) :
  contains t l = false → remove t l = l.
Proof. intros H. by apply remove_absent, contains_false. Qed.

End Tokens.

(** ** The calls on a rendered instance *)

Module Mounted.
Import DOM HTML BulkTagger Invariants Frame Search Building Rendering Tokens.

Lemma status_found (r sid : nat) (d : document) (er es : element) (b : bool) :
  nodes d !! r = Some er →
  head (childNodes er) = Some (CElem sid) →
  nodes d !! sid = Some es →
  classList es = ["selected-tag__status"; statusClass b] →
  DOM.element_querySelector r ".selected-tag__status" d = Found sid.
Proof.
  intros Hr Hh Hs Hc. unfold DOM.element_querySelector. rewrite Hr.
  destruct (childNodes er) as [|x kids]; [done|]. simpl in Hh.
  injection Hh as ->. unfold bound. simpl. rewrite Hs. unfold matches.
  rewrite Hc. destruct b; reflexivity.
Qed.

Lemma perform_mounted (r sid c : nat) (w : world) (k : call) :
  k ≠ RenderAndAttach → mounted r sid c w →
  ∃ w', perform k w = (Normal tt, w') ∧ mounted r sid c w'
        ∧ allWorksTagged (this w') = lastUpdate (allWorksTagged (this w)) [k].
Proof.
  intros Hk (Hh & Hrs & Hcr & Hcs & er & es & Hr & Hhd & Hp & Hs & Hcl & Hv).
  destruct w as [[tt tn a v h l] d]. simpl in *. subst h.
  destruct k; [done| | | | |].
  - (* remove *)
    js_unfold. eexists. split; [done|]. split; [|done].
    unfold mounted. simpl. split_and!; auto.
    unfold removeNode. rewrite Hr. destruct Hp as [Hp|Hp]; rewrite Hp.
    + exists er, es. split_and!; auto.
    + exists (with_parentNode None er), es. simpl. split_and!; auto.
      * by rewrite lookup_alter_eq, lookup_alter_ne, Hr.
      * by rewrite !lookup_alter_ne.
  - (* updateAllWorksTagged *)
    js_unfold.
    rewrite (status_found r sid d er es a) by done. js_unfold.
    destruct b; js_unfold; (eexists; split; [done|]; split; [|done]);
      unfold mounted; simpl; (split_and!; auto);
      eexists er, (with_classList _ (with_classList _ es));
      (split_and!; auto;
       [ by rewrite !lookup_alter_ne
       | by rewrite lookup_alter_eq, lookup_alter_eq, Hs
       | simpl; rewrite Hcl; destruct a; vm_compute; reflexivity ]).
  - (* hide *)
    js_unfold. eexists. split; [done|]. split; [|done].
    unfold mounted. simpl. split_and!; auto.
    exists (with_classList (DOM.add "hidden") er), es. split_and!; auto.
    + by rewrite lookup_alter_eq, Hr.
    + by rewrite lookup_alter_ne.
    + simpl. by rewrite contains_add.
  - (* show *)
    js_unfold. eexists. split; [done|]. split; [|done].
    unfold mounted. simpl. split_and!; auto.
    exists (with_classList (DOM.remove "hidden") er), es. split_and!; auto.
    + by rewrite lookup_alter_eq, Hr.
    + by rewrite lookup_alter_ne.
    + simpl. by rewrite contains_remove.
  - (* toggleVisibility *)
    js_unfold. eexists. split; [done|]. split; [|done].
    unfold mounted. simpl. split_and!; auto.
    exists (with_classList (DOM.toggle "hidden") er), es. split_and!; auto.
    + by rewrite lookup_alter_eq, Hr.
    + by rewrite lookup_alter_ne.
    + simpl. by rewrite contains_toggle, Hv.
Qed.

End Mounted.

(** ** From the constructor on *)

Module Lifecycle.
Import DOM HTML BulkTagger Invariants Frame Search Building Rendering Tokens Mounted.

Lemma render_mounted (s : SelectedTag) (d : document) (c : nat) :
  DOM.document_querySelector ".selected-tag-subjects" d = Found c →
  isVisible s = true →
  let r := fresh (dom (nodes d)) in
  ∃ d' sid more ec,
    renderAndAttach (World s d)
    = (Normal tt,
       World (Instance (tagType s) (tagName s) (allWorksTagged s) true
                       (Some r) (LOWERCASE_TAG_NAME s)) d')
    ∧ mounted r sid c
        (World (Instance (tagType s) (tagName s) (allWorksTagged s) true
                         (Some r) (LOWERCASE_TAG_NAME s)) d')
    ∧ nodes d !! r = None ∧ nodes d !! sid = None
    ∧ nodes d !! c = Some ec
    ∧ nodes d' !! c = Some (with_childNodes (cons (CElem r)) ec)
    ∧ nodes d' !! r = Some (rootElement (Some c) (CElem sid :: more))
    ∧ nodes d' !! sid = Some (statusElement (allWorksTagged s) r)
    ∧ documentElement d' = documentElement d
    ∧ (∀ i x, nodes d !! i = Some x → i ≠ c → nodes d' !! i = Some x).
Proof.
  intros Hq Hv r.
  assert (nodes d !! r = None) as Hr by (apply not_elem_of_dom, is_fresh).
  destruct (markup_status s) as [rest Hm].
  pose proof (tokenize_feed (statusMarkup (allWorksTagged s)) rest Data) as Ht.
  rewrite <- Hm, feed_status in Ht. cbn [fst snd] in Ht.
  set (t := Tag false "span"
              [("class", "selected-tag__status " +:+ statusClass (allWorksTagged s))]
              false) in *.
  set (t' := Tag true "span" [] false) in *.
  destruct (atTop_element r (nodes d) (rootElement None []) [] _ t t'
              eq_refl eq_refl eq_refl eq_refl (atTop_new r (nodes d) Hr))
    as (Hsid & Hsr & Htop).
  set (sid := fresh (dom (store (Builder (<[r := rootElement None []]> (nodes d)) [])))) in *.
  assert (elementOfTag t r = statusElement (allWorksTagged s) r) as He
    by (subst t; destruct (allWorksTagged s); reflexivity).
  rewrite He in Htop.
  destruct (render_built s d c _ [CElem sid] [TTag t; TTag t'] _ Hq Ht Htop)
    as (d' & more & ec & Hrun & Hde & Hc & Hc' & Hr' & HF & Hcr & _).
  { right. by exists [], sid. }
  { intros i x Hi. rewrite lookup_insert_ne; [done|congruence]. }
  assert (c ≠ sid) as Hcs by congruence.
  assert (nodes d' !! sid = Some (statusElement (allWorksTagged s) r)) as Hs'.
  { apply HF; [|done]. apply lookup_insert_eq. }
  exists d', sid, more, ec. rewrite Hv in Hrun. split_and!; auto.
  - unfold mounted. simpl. split_and!; auto.
    eexists _, _. split_and!; [exact Hr'|done|by right|exact Hs'|done|done].
  - intros i x Hi Hic. apply HF; [|done].
    rewrite lookup_insert_ne; [done|congruence].
Qed.

Lemma lastUpdate_cons (b : bool) (k : call) (cs : list call) :
  lastUpdate b (k :: cs) = lastUpdate (lastUpdate b [k]) cs.
Proof. by destruct k. Qed.

Lemma performAll_mounted (r sid c : nat) (cs : list call) (w : world) :
  existsb isRender cs = false → mounted r sid c w →
  ∃ w', performAll cs w = (Normal tt, w') ∧ mounted r sid c w'
        ∧ allWorksTagged (this w') = lastUpdate (allWorksTagged (this w)) cs.
Proof.
  revert w. induction cs as [|k cs IH]; intros w Hcs Hw.
  { exists w. by split_and!. }
  simpl in Hcs. apply orb_false_iff in Hcs as [Hk Hcs].
  destruct (perform_mounted r sid c w k) as (w1 & H1 & Hm1 & Ha1);
    [by intros ->|done|].
  destruct (IH w1 Hcs Hm1) as (w2 & H2 & Hm2 & Ha2).
  exists w2. split_and!; [|done|].
  - cbn [performAll]. unfold bind. by rewrite H1.
  - by rewrite lastUpdate_cons, <- Ha1.
Qed.

(** Rendering a new instance followed by calls other than rendering. *)
Lemma lifecycle (tagType tagName : string) (allWorksTagged : bool)
    (d : document) (c : nat) (cs : list call) :
  DOM.document_querySelector ".selected-tag-subjects" d = Found c →
  existsb isRender cs = false →
  ∃ w sid,
    (renderAndAttach;; performAll cs)%js
      (World (constructor tagType tagName allWorksTagged) d) = (Normal tt, w)
    ∧ mounted (fresh (dom (nodes d))) sid c w
    ∧ BulkTagger.allWorksTagged (this w) = lastUpdate allWorksTagged cs.
Proof.
  intros Hq Hcs.
  destruct (render_mounted (constructor tagType tagName allWorksTagged) d c
              Hq eq_refl) as (d' & sid & more & ec & Hrun & Hm & _).
  destruct (performAll_mounted _ _ _ cs _ Hcs Hm) as (w & Hw & Hm' & Ha).
  exists w, sid. split_and!; [|done|done].
  unfold bind. by rewrite Hrun.
Qed.

End Lifecycle.

(** ** Detaching the node *)

Module Detaching.
Import DOM HTML BulkTagger Invariants Frame Search Building Rendering Tokens
       Mounted Lifecycle.

(** [remove] on an instance whose node has a parent: the node loses its
    parent, the parent loses the node, the instance is as it was. *)
Lemma remove_attached (w : world) (n p : nat) (en ep : element) :
  selectedTag (this w) = Some n →
  nodes (page w) !! n = Some en → parentNode en = Some p → p ≠ n →
  nodes (page w) !! p = Some ep →
  ∃ d', remove w = (Normal tt, World (this w) d')
        ∧ nodes d' !! n = Some (with_parentNode None en)
        ∧ nodes d' !! p
          = Some (with_childNodes (filter (λ k, k ≠ CElem n)) ep)
        ∧ documentElement d' = documentElement (page w)
        ∧ ∀ i, i ≠ n → i ≠ p → nodes d' !! i = nodes (page w) !! i.
Proof.
  destruct w as [[tt tn a v h l] d]. simpl. intros -> Hn Hp Hpn Hep.
  js_unfold. unfold removeNode. rewrite Hn, Hp.
  eexists. split; [done|]. destruct d as [m de]. simpl in *. split_and!.
  - by rewrite lookup_alter_eq, lookup_alter_ne, Hn.
  - by rewrite lookup_alter_ne, lookup_alter_eq, Hep.
  - done.
  - intros i Hin Hip. by rewrite !lookup_alter_ne.
Qed.

(** [remove] on an instance whose node has no parent changes nothing. *)
Lemma remove_parentless (w : world) (n : nat) (en : element) :
  selectedTag (this w) = Some n →
  nodes (page w) !! n = Some en → parentNode en = None →
  remove w = (Normal tt, w).
Proof.
  destruct w as [[tt tn a v h l] d]. simpl. intros -> Hn Hp. js_unfold.
  unfold removeNode. by rewrite Hn, Hp.
Qed.

(** The node of a mounted instance is a child of the container while the
    container is its parent, and no child of it once it has none. *)
Lemma perform_attached (r sid c : nat) (w : world) (k : call) :
  k ≠ RenderAndAttach → mounted r sid c w →
  (∃ er ec, nodes (page w) !! r = Some er ∧ nodes (page w) !! c = Some ec
            ∧ (parentNode er = None → CElem r ∉ childNodes ec)) →
  ∃ er ec, nodes (page (perform k w).2) !! r = Some er
           ∧ nodes (page (perform k w).2) !! c = Some ec
           ∧ (parentNode er = None → CElem r ∉ childNodes ec).
Proof.
  intros Hk (Hh & Hrs & Hcr & Hcs & er & es & Hr & Hhd & Hp & Hs & Hcl & Hv)
         (er' & ec & Hr' & Hc & Hout).
  rewrite Hr in Hr'. injection Hr' as <-.
  destruct w as [[tt tn a v h l] d]. simpl in *. subst h.
  destruct k; [done| | | | |].
  - (* remove *)
    js_unfold. unfold removeNode. rewrite Hr.
    destruct Hp as [Hp|Hp]; rewrite Hp.
    + exists er, ec. by split_and!.
    + exists (with_parentNode None er),
             (with_childNodes (filter (λ k, k ≠ CElem r)) ec). simpl.
      split_and!.
      * by rewrite lookup_alter_eq, lookup_alter_ne, Hr.
      * by rewrite lookup_alter_ne, lookup_alter_eq, Hc.
      * intros _ Hin. apply list_elem_of_filter in Hin as [Hne _]. done.
  - (* updateAllWorksTagged *)
    js_unfold. rewrite (status_found r sid d er es a) by done. js_unfold.
    destruct b; js_unfold; exists er, ec; simpl;
      (split_and!; [by rewrite !lookup_alter_ne|by rewrite !lookup_alter_ne|done]).
  - (* hide *)
    js_unfold. exists (with_classList (DOM.add "hidden") er), ec. simpl.
    split_and!; [by rewrite lookup_alter_eq, Hr|by rewrite lookup_alter_ne|done].
  - (* show *)
    js_unfold. exists (with_classList (DOM.remove "hidden") er), ec. simpl.
    split_and!; [by rewrite lookup_alter_eq, Hr|by rewrite lookup_alter_ne|done].
  - (* toggleVisibility *)
    js_unfold. exists (with_classList (DOM.toggle "hidden") er), ec. simpl.
    split_and!; [by rewrite lookup_alter_eq, Hr|by rewrite lookup_alter_ne|done].
Qed.

Lemma performAll_attached (r sid c : nat) (cs : list call) (w : world) :
  existsb isRender cs = false → mounted r sid c w →
  (∃ er ec, nodes (page w) !! r = Some er ∧ nodes (page w) !! c = Some ec
            ∧ (parentNode er = None → CElem r ∉ childNodes ec)) →
  ∃ w' er ec, performAll cs w = (Normal tt, w') ∧ mounted r sid c w'
              ∧ nodes (page w') !! r = Some er
              ∧ nodes (page w') !! c = Some ec
              ∧ (parentNode er = None → CElem r ∉ childNodes ec).
Proof.
  revert w. induction cs as [|k cs IH]; intros w Hcs Hm Ha.
  { destruct Ha as (er & ec & ? & ? & ?). exists w, er, ec. by split_and!. }
  simpl in Hcs. apply orb_false_iff in Hcs as [Hk Hcs].
  assert (k ≠ RenderAndAttach) as Hne by (by intros ->).
  destruct (perform_mounted r sid c w k Hne Hm) as (w1 & H1 & Hm1 & _).
  pose proof (perform_attached r sid c w k Hne Hm Ha) as Ha1.
  rewrite H1 in Ha1. cbn [snd] in Ha1.
  destruct (IH w1 Hcs Hm1 Ha1) as (w2 & er & ec & H2 & Hm2 & Hrest).
  exists w2, er, ec. split; [|done].
  cbn [performAll]. unfold bind. by rewrite H1.
Qed.

(** Rendering, calls other than rendering, then [remove]: the node ends
    without a parent and outside the container, the handle still on it. *)
Lemma removed_at_last (tagType tagName : string) (allWorksTagged : bool)
    (d : document) (c : nat) (cs : list call) :
  DOM.document_querySelector ".selected-tag-subjects" d = Found c →
  existsb isRender cs = false →
  ∃ w n en ec,
    (renderAndAttach;; performAll cs;; remove)%js
      (World (constructor tagType tagName allWorksTagged) d) = (Normal tt, w)
    ∧ selectedTag (this w) = Some n
    ∧ nodes (page w) !! n = Some en ∧ parentNode en = None
    ∧ nodes (page w) !! c = Some ec ∧ CElem n ∉ childNodes ec.
Proof.
  intros Hq Hcs.
  destruct (render_mounted (constructor tagType tagName allWorksTagged) d c
              Hq eq_refl)
    as (d' & sid & more & ec & Hrun & Hm & _ & _ & _ & Hc' & Hr' & _).
  set (r := fresh (dom (nodes d))) in *. clearbody r.
  destruct (performAll_attached r sid c cs _ Hcs Hm)
    as (w1 & er1 & ec1 & H1 & Hm1 & Hr1 & Hc1 & Hout1).
  { eexists _, _. split_and!; [exact Hr'|exact Hc'|done]. }
  assert (∃ w, remove w1 = (Normal tt, w) ∧ selectedTag (this w) = Some r
               ∧ ∃ en ec, nodes (page w) !! r = Some en ∧ parentNode en = None
                          ∧ nodes (page w) !! c = Some ec
                          ∧ CElem r ∉ childNodes ec) as (w & Hw & Hh & en & ec' & Hn & Hp & Hc & Ho).
  { destruct Hm1 as (Hh & _ & Hcr & _ & er & es & Hr & _ & Hp & _).
    rewrite Hr in Hr1. injection Hr1 as <-. destruct Hp as [Hp|Hp].
    - exists w1. split; [by eapply remove_parentless|].
      split; [done|]. exists er, ec1. split_and!; auto.
    - destruct (remove_attached w1 r c er ec1 Hh Hr Hp Hcr Hc1)
        as (d1 & Hrm & Hn & Hc & _).
      eexists. split; [exact Hrm|]. split; [done|].
      eexists _, _. simpl. split_and!; [exact Hn|done|exact Hc|].
      simpl. intros Hin. apply list_elem_of_filter in Hin as [Hne _]. done. }
  exists w, r, en, ec'. split; [|by split_and!].
  unfold bind. rewrite Hrun. unfold bind in H1 |- *. by rewrite H1.
Qed.

End Detaching.

(** ** The prefix test, the handle and calls before rendering *)

Module Instance.
Import BulkTagger Frame.

(** C3: on an instance built by the constructor, whatever calls were
    made since, [tagNameStartsWith(s)] returns, leaves the instance and
    the page as they were, and answers [true] exactly when the lower-cased
    tag name is the lower-cased [s] followed by some rest; it answers
    [true] for the empty string and for the tag name itself. *)
Theorem tagNameStartsWith_prefix (tagType tagName : string)
    (allWorksTagged : bool) (d : DOM.document) (cs : list call)
    (searchString : string) :
  let w := (handle cs (World (constructor tagType tagName allWorksTagged) d)).2 in
  (∃ r, tagNameStartsWith searchString w = (Normal r, w)
        ∧ (r = true ↔
           ∃ rest, JSString.toLowerCase tagName
                   = JSString.toLowerCase searchString +:+ rest))
  ∧ tagNameStartsWith "" w = (Normal true, w)
  ∧ tagNameStartsWith tagName w = (Normal true, w).
Proof.
  intros w.
  assert (LOWERCASE_TAG_NAME (this w) = JSString.toLowerCase tagName) as Hl.
  { subst w. by destruct (handle_names cs
      (World (constructor tagType tagName allWorksTagged) d)) as [_ ->]. }
  unfold tagNameStartsWith. js_unfold. rewrite Hl. split_and!.
  - eexists. split; [done|]. apply StringFacts.startsWith_prefix.
  - by rewrite StringFacts.startsWith_empty.
  - by rewrite StringFacts.startsWith_refl.
Qed.

(** C4, as the code has it: after any calls on a new instance the handle
    is set exactly when some [renderAndAttach] among them returned
    normally.  [remove] leaves the handle as it is, always, and detaches
    the node: on a state whose handle refers to a node that has a parent
    it returns, the instance is as it was, the node has no parent any
    more and is taken out of the children of the parent; and when a new
    instance was rendered into a page that has the container, after any
    further calls other than rendering, [remove] returns with the handle
    still set, the node without a parent and not among the children of
    the container. *)
Theorem handle_set_iff_rendered (tagType tagName : string)
    (allWorksTagged : bool) (d : DOM.document) (cs : list call) :
  let r := handle cs (World (constructor tagType tagName allWorksTagged) d) in
  (is_Some (selectedTag (this r.2)) ↔ renderedNormally cs r.1 = true)
  ∧ (∀ w, selectedTag (this (remove w).2) = selectedTag (this w))
  ∧ (∀ w n en p ep,
       selectedTag (this w) = Some n →
       DOM.nodes (page w) !! n = Some en →
       DOM.parentNode en = Some p → p ≠ n →
       DOM.nodes (page w) !! p = Some ep →
       ∃ d', remove w = (Normal tt, World (this w) d')
             ∧ DOM.nodes d' !! n = Some (DOM.with_parentNode None en)
             ∧ DOM.nodes d' !! p
               = Some (DOM.with_childNodes
                         (filter (λ k, k ≠ DOM.CElem n)) ep))
  ∧ (∀ c cs',
       DOM.document_querySelector ".selected-tag-subjects" d = DOM.Found c →
       existsb isRender cs' = false →
       ∃ w n en ec,
         (renderAndAttach;; performAll cs';; remove)%js
           (World (constructor tagType tagName allWorksTagged) d)
         = (Normal tt, w)
         ∧ selectedTag (this w) = Some n
         ∧ DOM.nodes (page w) !! n = Some en ∧ DOM.parentNode en = None
         ∧ DOM.nodes (page w) !! c = Some ec
         ∧ DOM.CElem n ∉ DOM.childNodes ec).
Proof.
  split_and!.
  - rewrite handle_mounted. simpl. split; [|by right].
    intros [[x Hx]|H]; [done|done].
  - intros w. by apply (perform_handle Remove).
  - intros w n en p ep Hh Hn Hp Hpn Hep.
    destruct (Detaching.remove_attached w n p en ep Hh Hn Hp Hpn Hep)
      as (d' & Hrun & Hn' & Hp' & _).
    by exists d'.
  - intros c cs'. apply Detaching.removed_at_last.
Qed.

Lemma handle_set_iff_rendered_fantasy :
  is_Some (selectedTag
             (this (handle [RenderAndAttach; Remove] Example.fantasy).2))
  ∧ (∃ d', remove (renderAndAttach Example.fantasy).2
           = (Normal tt, World (this (renderAndAttach Example.fantasy).2) d')
           ∧ DOM.nodes d' !! 3
             = Some (DOM.Element "div" ["selected-tag"] [] None
                       [DOM.CElem 4; DOM.CText indent; DOM.CElem 5;
                        DOM.CText indent; DOM.CElem 6])
           ∧ DOM.nodes d' !! 2
             = Some (DOM.Element "div" ["selected-tag-subjects"] []
                       (Some 1) []))
  ∧ ∃ w n en ec,
      (renderAndAttach;; performAll [Hide; Remove; Show];; remove)%js
        Example.fantasy = (Normal tt, w)
      ∧ selectedTag (this w) = Some n
      ∧ DOM.nodes (page w) !! n = Some en ∧ DOM.parentNode en = None
      ∧ DOM.nodes (page w) !! 2 = Some ec
      ∧ DOM.CElem n ∉ DOM.childNodes ec.
Proof.
  destruct (handle_set_iff_rendered "subjects" "Fantasy" false Example.page
              [RenderAndAttach; Remove]) as (H1 & _ & H2 & H3).
  split_and!.
  - apply H1. reflexivity.
  - apply (H2 (renderAndAttach Example.fantasy).2 3
              (DOM.Element "div" ["selected-tag"] [] (Some 2)
                 [DOM.CElem 4; DOM.CText indent; DOM.CElem 5;
                  DOM.CText indent; DOM.CElem 6])
              2
              (DOM.Element "div" ["selected-tag-subjects"] [] (Some 1)
                 [DOM.CElem 3]));
      [reflexivity|reflexivity|reflexivity|lia|reflexivity].
  - apply (H3 2 [Hide; Remove; Show]); reflexivity.
Defined.

(** C4, as the specification states it, fails: after [renderAndAttach]
    and [remove] the handle is still set. *)
Lemma handle_survives_remove :
  ¬ (∀ cs, is_Some (selectedTag (this (handle cs Example.fantasy).2))
           ↔ mountedBySpec false cs = true).
Proof.
  intros H. specialize (H [RenderAndAttach; Remove]).
  assert (is_Some (selectedTag
            (this (handle [RenderAndAttach; Remove] Example.fantasy).2))) as Hs.
  { vm_compute. eauto. }
  apply H in Hs. discriminate Hs.
Qed.

(** C9: with the handle unset, [updateAllWorksTagged(v)] throws a
    [TypeError] after it has stored [v] in [allWorksTagged], while [hide]
    and [show] throw it with the state untouched. *)
Theorem update_before_render (w : world) (v : bool) :
  selectedTag (this w) = None →
  updateAllWorksTagged v w
  = (Throw TypeError,
     World (Instance (tagType (this w)) (tagName (this w)) v
                     (isVisible (this w)) None (LOWERCASE_TAG_NAME (this w)))
           (page w))
  ∧ hide w = (Throw TypeError, w)
  ∧ show w = (Throw TypeError, w).
Proof.
  destruct w as [[tt tn a vis h l] d]. simpl. intros ->.
  split_and!; js_unfold; done.
Qed.

Lemma update_before_render_fantasy :
  selectedTag (this Example.fantasy) = None
  ∧ allWorksTagged (this Example.fantasy) = false
  ∧ (updateAllWorksTagged true Example.fantasy).1 = Throw TypeError
  ∧ allWorksTagged (this (updateAllWorksTagged true Example.fantasy).2) = true
  ∧ hide Example.fantasy = (Throw TypeError, Example.fantasy)
  ∧ show Example.fantasy = (Throw TypeError, Example.fantasy).
Proof.
  destruct (update_before_render Example.fantasy true eq_refl)
    as (Hu & Hh & Hs).
  rewrite Hu. split_and!; try reflexivity; assumption.
Defined.

End Instance.

(** ** The status marker, visibility and removal *)

Module Rendered.
Import DOM HTML BulkTagger Invariants Frame Search Building Rendering Tokens
       Mounted Lifecycle.

(** C1: a new instance is rendered into a page that has the container
    and then receives any calls other than [renderAndAttach].  All of
    them return; the element that [.selected-tag__status] selects in the
    mounted node then carries the all-tagged class exactly when the last
    [updateAllWorksTagged] was given [true] (the constructor's value when
    there was none), and the some-tagged class exactly when it does not
    carry the all-tagged one. *)
Theorem status_marker_follows_updates (tagType tagName : string)
    (allWorksTagged : bool) (d : document) (c : nat) (cs : list call) :
  DOM.document_querySelector ".selected-tag-subjects" d = Found c →
  existsb isRender cs = false →
  ∃ w r n e,
    (renderAndAttach;; performAll cs)%js
      (World (constructor tagType tagName allWorksTagged) d) = (Normal tt, w)
    ∧ selectedTag (this w) = Some r
    ∧ DOM.element_querySelector r ".selected-tag__status" (page w) = Found n
    ∧ nodes (page w) !! n = Some e
    ∧ BulkTagger.allWorksTagged (this w) = lastUpdate allWorksTagged cs
    ∧ contains "selected-tag__status--all-tagged" (classList e)
      = lastUpdate allWorksTagged cs
    ∧ contains "selected-tag__status--some-tagged" (classList e)
      = negb (lastUpdate allWorksTagged cs).
Proof.
  intros Hq Hcs.
  destruct (lifecycle tagType tagName allWorksTagged d c cs Hq Hcs)
    as (w & sid & Hrun & Hm & Ha).
  destruct Hm as (Hh & _ & _ & _ & er & es & Hr & Hhd & _ & Hs & Hcl & _).
  exists w, (fresh (dom (nodes d))), sid, es. split_and!; auto.
  - eapply status_found; eauto.
  - rewrite Hcl, Ha. by destruct (lastUpdate allWorksTagged cs).
  - rewrite Hcl, Ha. by destruct (lastUpdate allWorksTagged cs).
Qed.

Lemma status_marker_follows_updates_fantasy :
  DOM.document_querySelector ".selected-tag-subjects" Example.page = Found 2
  ∧ existsb isRender [UpdateAllWorksTagged true; Hide;
                      UpdateAllWorksTagged false] = false
  ∧ ∃ w r n e,
      (renderAndAttach;;
       performAll [UpdateAllWorksTagged true; Hide;
                   UpdateAllWorksTagged false])%js Example.fantasy
      = (Normal tt, w)
      ∧ selectedTag (this w) = Some r
      ∧ DOM.element_querySelector r ".selected-tag__status" (page w) = Found n
      ∧ nodes (page w) !! n = Some e
      ∧ BulkTagger.allWorksTagged (this w) = false
      ∧ contains "selected-tag__status--all-tagged" (classList e) = false
      ∧ contains "selected-tag__status--some-tagged" (classList e) = true.
Proof.
  split; [reflexivity|]. split; [reflexivity|].
  apply (status_marker_follows_updates "subjects" "Fantasy" false Example.page 2
           [UpdateAllWorksTagged true; Hide; UpdateAllWorksTagged false]);
    reflexivity.
Defined.

Lemma with_classList_id (f : list string → list string) (e : element) :
  f (classList e) = classList e → with_classList f e = e.
Proof. destruct e. unfold with_classList. simpl. by intros ->. Qed.

(** C7: a new instance is rendered into a page that has the container
    and then receives any calls other than [renderAndAttach].  All of
    them return, and afterwards [isVisible] holds exactly when the mounted
    node lacks the class [hidden]; right after rendering the instance is
    visible and the class absent; and two calls of [toggleVisibility]
    leave [isVisible] and the presence of the class as they were. *)
Theorem visibility_tracks_hidden_marker (tagType tagName : string)
    (allWorksTagged : bool) (d : document) (c : nat) (cs : list call) :
  DOM.document_querySelector ".selected-tag-subjects" d = Found c →
  existsb isRender cs = false →
  ∃ w r e,
    (renderAndAttach;; performAll cs)%js
      (World (constructor tagType tagName allWorksTagged) d) = (Normal tt, w)
    ∧ selectedTag (this w) = Some r
    ∧ nodes (page w) !! r = Some e
    ∧ isVisible (this w) = negb (contains "hidden" (classList e))
    ∧ (cs = [] → isVisible (this w) = true
                 ∧ contains "hidden" (classList e) = false)
    ∧ ∃ w2 e2,
        (toggleVisibility;; toggleVisibility)%js w = (Normal tt, w2)
        ∧ nodes (page w2) !! r = Some e2
        ∧ isVisible (this w2) = isVisible (this w)
        ∧ contains "hidden" (classList e2) = contains "hidden" (classList e).
Proof.
  intros Hq Hcs.
  destruct (lifecycle tagType tagName allWorksTagged d c cs Hq Hcs)
    as (w & sid & Hrun & Hm & Ha).
  set (r := fresh (dom (nodes d))) in *.
  destruct (performAll_mounted r sid c [ToggleVisibility; ToggleVisibility]
              w eq_refl Hm) as (w2 & Hrun2 & Hm2 & _).
  pose proof Hm as (Hh & _ & _ & _ & er & es & Hr & _ & _ & _ & _ & Hv).
  pose proof Hm2 as (_ & _ & _ & _ & er2 & es2 & Hr2 & _ & _ & _ & _ & Hv2).
  assert (isVisible (this w2) = isVisible (this w)) as Hvv.
  { revert Hrun2. destruct w as [[? ? ? ? ? ?] ?]. simpl in Hh. subst.
    cbn [performAll]. js_unfold. intros [= <-]. simpl. apply negb_involutive. }
  exists w, r, er. split_and!; auto.
  - intros ->. revert Hrun. cbn [performAll]. unfold bind, ret.
    destruct (render_mounted (constructor tagType tagName allWorksTagged) d c
                Hq eq_refl) as (d' & sid' & more & ec & -> & _). intros [= <-].
    simpl in *. split; [done|]. rewrite <- negb_true_iff. by rewrite <- Hv.
  - exists w2, er2. split_and!; auto.
    + revert Hrun2. cbn [performAll perform]. unfold bind, ret.
      destruct (toggleVisibility w) as [[[]|] w1]; [|done].
      by destruct (toggleVisibility w1) as [[[]|] w3].
    + rewrite Hv, Hv2 in Hvv.
      by destruct (contains "hidden" (classList er)),
                  (contains "hidden" (classList er2)).
Qed.


Lemma visibility_tracks_hidden_marker_fantasy :
  DOM.document_querySelector ".selected-tag-subjects" Example.page = Found 2
  ∧ existsb isRender [Hide; ToggleVisibility; UpdateAllWorksTagged true;
                      Show; Hide] = false
  ∧ ∃ w r e,
      (renderAndAttach;;
       performAll [Hide; ToggleVisibility; UpdateAllWorksTagged true;
                   Show; Hide])%js Example.fantasy = (Normal tt, w)
      ∧ selectedTag (this w) = Some r
      ∧ nodes (page w) !! r = Some e
      ∧ isVisible (this w) = negb (contains "hidden" (classList e))
      ∧ ([Hide; ToggleVisibility; UpdateAllWorksTagged true; Show; Hide] = []
         → isVisible (this w) = true
           ∧ contains "hidden" (classList e) = false)
      ∧ ∃ w2 e2,
          (toggleVisibility;; toggleVisibility)%js w = (Normal tt, w2)
          ∧ nodes (page w2) !! r = Some e2
          ∧ isVisible (this w2) = isVisible (this w)
          ∧ contains "hidden" (classList e2) = contains "hidden" (classList e).
Proof.
  split; [reflexivity|]. split; [reflexivity|].
  apply (visibility_tracks_hidden_marker "subjects" "Fantasy" false
           Example.page 2
           [Hide; ToggleVisibility; UpdateAllWorksTagged true; Show; Hide]);
    reflexivity.
Defined.

(** C8: on an instance rendered into a page that has the container,
    after any calls other than [renderAndAttach]: [hide] twice is [hide]
    once, [hide] on a hidden instance changes nothing, and likewise for
    [show]; [hide] followed by [show] leaves the instance visible and the
    mounted node without the class [hidden]. *)
Theorem hide_show_idempotent (tagType tagName : string)
    (allWorksTagged : bool) (d : document) (c : nat) (cs : list call) :
  DOM.document_querySelector ".selected-tag-subjects" d = Found c →
  existsb isRender cs = false →
  ∃ w r,
    (renderAndAttach;; performAll cs)%js
      (World (constructor tagType tagName allWorksTagged) d) = (Normal tt, w)
    ∧ selectedTag (this w) = Some r
    ∧ (hide;; hide)%js w = hide w
    ∧ (isVisible (this w) = false → hide w = (Normal tt, w))
    ∧ (show;; show)%js w = show w
    ∧ (isVisible (this w) = true → show w = (Normal tt, w))
    ∧ ∃ w2 e2,
        (hide;; show)%js w = (Normal tt, w2)
        ∧ nodes (page w2) !! r = Some e2
        ∧ isVisible (this w2) = true
        ∧ contains "hidden" (classList e2) = false.
Proof.
  intros Hq Hcs.
  destruct (lifecycle tagType tagName allWorksTagged d c cs Hq Hcs)
    as (w & sid & Hrun & Hm & Ha).
  set (r := fresh (dom (nodes d))) in *.
  destruct Hm as (Hh & _ & _ & _ & er & es & Hr & _ & _ & _ & _ & Hv).
  exists w, r. split; [done|]. split; [done|].
  clear Hrun Ha. destruct w as [[tt tn a v h l] [m root]]. simpl in *. subst h.
  js_unfold. unfold with_nodes. simpl. split_and!.
  - do 3 f_equal. rewrite alter_alter_eq. apply alter_ext. intros x _.
    unfold with_classList. simpl. f_equal.
    apply add_present, contains_add.
  - intros ->. do 3 f_equal. apply alter_id. intros x Hx.
    assert (x = er) as -> by congruence. apply with_classList_id.
    apply add_present. by destruct (contains "hidden" (classList er)).
  - do 3 f_equal. rewrite alter_alter_eq. apply alter_ext. intros x _.
    unfold with_classList. simpl. f_equal.
    apply remove_not_contained, contains_remove.
  - intros ->. do 3 f_equal. apply alter_id. intros x Hx.
    assert (x = er) as -> by congruence. apply with_classList_id.
    apply remove_not_contained. by destruct (contains "hidden" (classList er)).
  - eexists _, _. split; [done|]. simpl. split_and!; [|done|].
    + by rewrite lookup_alter_eq, lookup_alter_eq, Hr.
    + simpl. apply contains_remove.
Qed.

Lemma hide_show_idempotent_fantasy :
  DOM.document_querySelector ".selected-tag-subjects" Example.page = Found 2
  ∧ existsb isRender [Hide; UpdateAllWorksTagged true] = false
  ∧ ∃ w r,
      (renderAndAttach;; performAll [Hide; UpdateAllWorksTagged true])%js
        Example.fantasy = (Normal tt, w)
      ∧ selectedTag (this w) = Some r
      ∧ (hide;; hide)%js w = hide w
      ∧ (isVisible (this w) = false → hide w = (Normal tt, w))
      ∧ (show;; show)%js w = show w
      ∧ (isVisible (this w) = true → show w = (Normal tt, w))
      ∧ ∃ w2 e2,
          (hide;; show)%js w = (Normal tt, w2)
          ∧ nodes (page w2) !! r = Some e2
          ∧ isVisible (this w2) = true
          ∧ contains "hidden" (classList e2) = false.
Proof.
  split; [reflexivity|]. split; [reflexivity|].
  apply (hide_show_idempotent "subjects" "Fantasy" false Example.page 2
           [Hide; UpdateAllWorksTagged true]); reflexivity.
Defined.

Lemma remove_mounted (r sid c : nat) (w : world) :
  mounted r sid c w →
  ∃ w' er, remove w = (Normal tt, w') ∧ mounted r sid c w'
           ∧ nodes (page w') !! r = Some er ∧ parentNode er = None.
Proof.
  intros Hm. destruct (perform_mounted r sid c w Remove) as (w' & Hrun & Hm' & _);
    [done|done|].
  destruct Hm as (Hh & _ & Hcr & _ & er & es & Hr & _ & Hp & _).
  cbn [perform] in Hrun. exists w'. revert Hrun.
  destruct w as [[tt tn a v h l] d]. simpl in *. subst h. js_unfold.
  unfold removeNode. rewrite Hr. intros [= <-].
  destruct Hp as [Hp|Hp]; rewrite Hp in *.
  - exists er. by split_and!.
  - exists (with_parentNode None er). split_and!; auto. simpl.
    by rewrite lookup_alter_eq, lookup_alter_ne, Hr.
Qed.

Lemma remove_detached (r : nat) (w : world) (er : element) :
  selectedTag (this w) = Some r →
  nodes (page w) !! r = Some er → parentNode er = None →
  remove w = (Normal tt, w).
Proof.
  destruct w as [[tt tn a v h l] d]. simpl. intros -> Hr Hp. js_unfold.
  unfold removeNode. by rewrite Hr, Hp.
Qed.

(** C10: once [remove] has returned on a rendered instance, a second
    [remove] returns too and leaves the instance and the page exactly as
    they were. *)
Theorem second_remove_is_noop (tagType tagName : string)
    (allWorksTagged : bool) (d : document) (c : nat) (cs : list call) :
  DOM.document_querySelector ".selected-tag-subjects" d = Found c →
  existsb isRender cs = false →
  ∃ w, (renderAndAttach;; performAll cs;; remove)%js
         (World (constructor tagType tagName allWorksTagged) d) = (Normal tt, w)
       ∧ remove w = (Normal tt, w).
Proof.
  intros Hq Hcs.
  destruct (lifecycle tagType tagName allWorksTagged d c cs Hq Hcs)
    as (w1 & sid & Hrun & Hm & _).
  destruct (remove_mounted _ _ _ _ Hm) as (w & er & Hrm & Hm' & Hr & Hp).
  exists w. split.
  - revert Hrun. unfold bind.
    destruct (renderAndAttach _) as [[[]|] w0]; [|done].
    destruct (performAll cs w0) as [[[]|] w0']; [|done]. by intros [= ->].
  - destruct Hm' as (Hh & _). by eapply remove_detached.
Qed.

Lemma second_remove_is_noop_fantasy :
  DOM.document_querySelector ".selected-tag-subjects" Example.page = Found 2
  ∧ existsb isRender [UpdateAllWorksTagged true; Hide] = false
  ∧ ∃ w, (renderAndAttach;; performAll [UpdateAllWorksTagged true; Hide];;
          remove)%js Example.fantasy = (Normal tt, w)
         ∧ remove w = (Normal tt, w).
Proof.
  split; [reflexivity|]. split; [reflexivity|].
  apply (second_remove_is_noop "subjects" "Fantasy" false Example.page 2
           [UpdateAllWorksTagged true; Hide]); reflexivity.
Defined.

End Rendered.

(** ** The category marker *)

Module Category.
Import DOM HTML BulkTagger Invariants Frame Search Building Rendering Tokens
       Mounted Lifecycle.

Lemma interpolate_undefined (k : string) :
  JSString.assoc k classTypeSuffixes = None →
  JSString.assoc k JSString.ObjectPrototype = None →
  JSString.interpolateProperty classTypeSuffixes k = "undefined".
Proof. unfold JSString.interpolateProperty. by intros -> ->. Qed.

Lemma markup_undefined (s : SelectedTag) :
  JSString.interpolateProperty classTypeSuffixes (tagType s) = "undefined" →
  ∃ rest, markup s
          = (statusMarkup (allWorksTagged s) +:+ indent +:+ typeMarkup "undefined")
            +:+ rest.
Proof.
  intros H. eexists. unfold markup. rewrite H.
  destruct (allWorksTagged s); reflexivity.
Qed.

Lemma feed_undefined (b : bool) :
  feed Data (statusMarkup b +:+ indent +:+ typeMarkup "undefined")
  = (TTag (Tag false "span"
             [("class", "selected-tag__status " +:+ statusClass b)] false)
     :: TTag (Tag true "span" [] false)
     :: chars indent
     ++ [ TTag (Tag false "span"
              [("class", "selected-tag__type selected-tag__typeundefined")]
              false);
          TTag (Tag true "span" [] false) ], Data).
Proof. destruct b; vm_compute; reflexivity. Qed.

Lemma fold_left_two {A B} (f : A → B → A) (x y : B) (l : list B) (a : A) :
  fold_left f (x :: y :: l) a = fold_left f l (f (f a x) y).
Proof. reflexivity. Qed.

Lemma fold_left_nil {A B} (f : A → B → A) (a : A) : fold_left f [] a = a.
Proof. reflexivity. Qed.

Lemma insertText_indent (n : nat) :
  insertText indent ([] ++ [CElem n]) = [CElem n; CText indent].
Proof. reflexivity. Qed.

Lemma elementOfTag_status (b : bool) (r : nat) :
  elementOfTag (Tag false "span"
                  [("class", "selected-tag__status " +:+ statusClass b)] false) r
  = statusElement b r.
Proof. destruct b; reflexivity. Qed.

Lemma elementOfTag_undefined (r : nat) :
  elementOfTag (Tag false "span"
                  [("class", "selected-tag__type selected-tag__typeundefined")]
                  false) r
  = typeElement "undefined" r.
Proof. reflexivity. Qed.

Lemma status_is_no_type (b : bool) (r : nat) :
  matches ".selected-tag__type" (statusElement b r) = false.
Proof. by destruct b. Qed.

Lemma type_is_type (r : nat) :
  matches ".selected-tag__type" (typeElement "undefined" r) = true.
Proof. reflexivity. Qed.

Lemma no_category_modifier (k v : string) :
  JSString.assoc k classTypeSuffixes = Some v →
  "selected-tag__type" +:+ v ∉ classList (typeElement "undefined" 0).
Proof.
  unfold classTypeSuffixes. simpl.
  repeat (destruct (String.eqb k _);
          [intros [= <-]; apply (bool_decide_unpack _); by vm_compute|]).
  done.
Qed.

(** C5, as the code has it: for a [tagType] that is no key of
    [classTypeSuffixes] and no member of [Object.prototype], the node
    rendered into a page that has the container still has its category
    marker, a childless [span] of class [selected-tag__type]; the marker
    carries none of the four category classes. *)
Theorem unrecognised_type_marker (tagType tagName : string)
    (allWorksTagged : bool) (d : document) (c : nat) :
  DOM.document_querySelector ".selected-tag-subjects" d = Found c →
  JSString.assoc tagType classTypeSuffixes = None →
  JSString.assoc tagType JSString.ObjectPrototype = None →
  ∃ w r n e,
    renderAndAttach (World (constructor tagType tagName allWorksTagged) d)
    = (Normal tt, w)
    ∧ selectedTag (this w) = Some r
    ∧ DOM.element_querySelector r ".selected-tag__type" (page w) = Found n
    ∧ nodes (page w) !! n = Some e
    ∧ localName e = "span" ∧ childNodes e = [] ∧ parentNode e = Some r
    ∧ "selected-tag__type" ∈ classList e
    ∧ ∀ k v, JSString.assoc k classTypeSuffixes = Some v →
             "selected-tag__type" +:+ v ∉ classList e.
Proof.
  intros Hq Hown Hinh.
  set (s := constructor tagType tagName allWorksTagged).
  set (r := fresh (dom (nodes d))).
  assert (nodes d !! r = None) as Hr by (apply not_elem_of_dom, is_fresh).
  destruct (markup_undefined s (interpolate_undefined _ Hown Hinh)) as [rest Hm].
  change (BulkTagger.allWorksTagged s) with allWorksTagged in Hm.
  pose proof (tokenize_feed
                (statusMarkup allWorksTagged +:+ indent +:+ typeMarkup "undefined")
                rest Data) as Ht.
  rewrite <- Hm, feed_undefined in Ht. cbn [fst snd] in Ht.
  set (t1 := Tag false "span" _ false) in Ht at 1.
  set (t' := Tag true "span" [] false) in *.
  set (t2 := Tag false "span" _ false) in Ht.
  destruct (atTop_element r (nodes d) (rootElement None []) [] _ t1 t'
              eq_refl eq_refl eq_refl eq_refl (atTop_new r (nodes d) Hr))
    as (Hsid & Hsr & Htop).
  set (sid := fresh (dom (store (Builder _ [])))) in *.
  apply (atTop_chars _ _ _ indent) in Htop.
  destruct (atTop_element _ _ _ _ _ t2 t' eq_refl eq_refl eq_refl eq_refl Htop)
    as (Htid & Htr & Htop').
  set (tid := fresh (dom (store (fold_left _ (chars indent) _)))) in *.
  clear Htop. clearbody sid tid.
  assert (sid ≠ tid) as Hst.
  { intros E. rewrite <- E, lookup_insert_eq in Htid. done. }
  rewrite lookup_insert_ne in Htid by done.
  rewrite insertText_indent in Htop'.
  replace (elementOfTag t1 r) with (statusElement allWorksTagged r) in Htop'
    by (symmetry; apply elementOfTag_status).
  replace (elementOfTag t2 r) with (typeElement "undefined" r) in Htop'
    by (symmetry; apply elementOfTag_undefined).
  destruct (render_built s d c
              (<[tid := typeElement "undefined" r]>
                 (<[sid := statusElement allWorksTagged r]> (nodes d)))
              ([CElem sid; CText indent] ++ [CElem tid])
              (TTag t1 :: TTag t' :: chars indent ++ [TTag t2; TTag t'])
              _ Hq Ht)
    as (d' & more & ec & Hrun & Hde & Hc & Hc' & Hr' & HF & Hcr & _).
  { rewrite fold_left_two, fold_left_app, fold_left_two, fold_left_nil.
    exact Htop'. }
  { right. by exists [CElem sid; CText indent], tid. }
  { intros i x Hi. rewrite !lookup_insert_ne; [done|congruence|congruence]. }
  assert (nodes d' !! sid = Some (statusElement allWorksTagged r)) as Hs'.
  { apply HF; [|congruence]. rewrite lookup_insert_ne by done.
    apply lookup_insert_eq. }
  assert (nodes d' !! tid = Some (typeElement "undefined" r)) as Ht'.
  { apply HF; [|congruence]. apply lookup_insert_eq. }
  eexists _, r, tid, _. split; [exact Hrun|]. split; [done|].
  split; [|split; [exact Ht'|]].
  2:{ split_and!; try done; [by left|]. intros k v. apply no_category_modifier. }
  unfold DOM.element_querySelector. cbn [page]. fold r in Hr'. rewrite Hr'.
  unfold bound.
  destruct (size (nodes d')) as [|k] eqn:Hk.
  { exfalso. by eapply (map_size_ne_0_lookup_2 (nodes d') r). }
  cbn [descend scan rootElement childNodes app]. rewrite Hs'.
  rewrite status_is_no_type. cbn [statusElement childNodes scan].
  by rewrite Ht', type_is_type.
Qed.

Lemma unrecognised_type_marker_genre :
  DOM.document_querySelector ".selected-tag-subjects" Example.page = Found 2
  ∧ JSString.assoc "genre" classTypeSuffixes = None
  ∧ JSString.assoc "genre" JSString.ObjectPrototype = None
  ∧ ∃ w r n e,
      renderAndAttach Example.genre = (Normal tt, w)
      ∧ selectedTag (this w) = Some r
      ∧ DOM.element_querySelector r ".selected-tag__type" (page w) = Found n
      ∧ nodes (page w) !! n = Some e
      ∧ localName e = "span" ∧ childNodes e = [] ∧ parentNode e = Some r
      ∧ "selected-tag__type" ∈ classList e
      ∧ ∀ k v, JSString.assoc k classTypeSuffixes = Some v →
               "selected-tag__type" +:+ v ∉ classList e.
Proof.
  split; [reflexivity|]. split; [reflexivity|]. split; [reflexivity|].
  apply (unrecognised_type_marker "genre" "Fantasy" false Example.page 2);
    reflexivity.
Defined.

End Category.

(** ** Rendering a plain tag name *)

Module Plain.
Import DOM HTML BulkTagger Invariants Frame Search Building Rendering Tokens
       Mounted Lifecycle Category.

Lemma feed_plain (s : string) : plain s = true → feed Data s = (chars s, Data).
Proof.
  induction s as [|c s IH]; simpl; [done|].
  intros H. apply andb_true_iff in H as [H Hs].
  apply andb_true_iff in H as [H _]. apply andb_true_iff in H as [H _].
  apply andb_true_iff in H as [H1 H2].
  apply negb_true_iff in H1, H2. unfold dataStep. rewrite H1, H2.
  by rewrite (IH Hs).
Qed.

Lemma append_cons (a : ascii) (t s : string) :
  String a t +:+ s = String a (t +:+ s).
Proof. reflexivity. Qed.

Lemma append_empty (t : string) : t +:+ "" = t.
Proof.
  induction t as [|a t IH]; [done|]. by rewrite append_cons, IH.
Qed.

Lemma snoc_append (t : string) (c : ascii) (s : string) :
  snoc t c +:+ s = t +:+ String c s.
Proof.
  unfold snoc. induction t as [|a t IH]; [done|].
  by rewrite !append_cons, IH.
Qed.

Lemma insertText_nonempty (s : string) (t : string) :
  insertText s [CText t] = [CText (t +:+ s)].
Proof.
  revert t. induction s as [|c s IH]; intros t; simpl.
  - by rewrite append_empty.
  - by rewrite IH, snoc_append.
Qed.

Lemma insertText_closed (s : string) (pre more : list child) :
  closed pre → insertText s (pre ++ more) = pre ++ insertText s more.
Proof.
  intros Hc. revert more. induction s as [|c s IH]; intros more; simpl; [done|].
  by rewrite insertCharacter_closed, IH.
Qed.

Lemma insertText_text (s : string) :
  insertText s [] = if String.eqb s "" then [] else [CText s].
Proof. destruct s as [|c s]; simpl; [done|]. by rewrite insertText_nonempty. Qed.

(** Character data between a start tag and its end tag. *)
Lemma fold_chars_inside (root n : nat) (name : string) (s : string)
    (m : gmap nat element) (e : element) :
  fold_left (treeStep root) (chars s) (Builder (<[n := e]> m) [(n, name)])
  = Builder (<[n := with_childNodes (insertText s) e]> m) [(n, name)].
Proof.
  revert e. induction s as [|c s IH]; intros e; cbn [chars fold_left].
  - by destruct e.
  - change (treeStep root (Builder (<[n := e]> m) [(n, name)]) (TChar c))
      with (Builder (alter (with_childNodes (insertCharacter c)) n (<[n := e]> m))
                    [(n, name)]).
    rewrite alter_insert_eq, IH. by destruct e.
Qed.

Lemma atTop_text_element (root : nat) (F : gmap nat element) (e : element)
    (kids : list child) (b : builder) (t t' : tag) (s : string) :
  closing t = false → isVoid (HTML.tagName t) = false →
  closing t' = true → HTML.tagName t' = HTML.tagName t →
  atTop root F e kids b →
  let n := fresh (dom (store b)) in
  F !! n = None ∧ n ≠ root
  ∧ atTop root
      (<[n := with_childNodes (insertText s) (elementOfTag t root)]> F) e
      (kids ++ [CElem n])
      (treeStep root
         (fold_left (treeStep root) (chars s) (treeStep root b (TTag t)))
         (TTag t')).
Proof.
  intros Ht Hv Ht' Hn (HF & Hr & Hroot & Hopen) n.
  assert (store b !! n = None) as Hfresh by (apply not_elem_of_dom, is_fresh).
  assert (F !! n = None) as HFn.
  { destruct (F !! n) eqn:E; [|done]. apply HF in E. congruence. }
  assert (n ≠ root) as Hnr by congruence.
  split; [done|]. split; [done|].
  unfold treeStep at 3. unfold currentNode. rewrite Hopen, Ht, Hv. fold n.
  cbn [store openElements]. rewrite fold_chars_inside.
  unfold treeStep. rewrite Ht', Hn. cbn [store openElements closeElement].
  rewrite String.eqb_refl.
  split_and!; simpl; auto.
  - intros i x. destruct (decide (n = i)) as [<-|Hi].
    + by rewrite !lookup_insert_eq.
    + rewrite !lookup_insert_ne by done. intros Hx.
      rewrite lookup_alter_ne; [auto|congruence].
  - by rewrite lookup_insert_ne.
  - rewrite lookup_insert_ne by done. by rewrite lookup_alter_eq, Hroot.
Qed.

Lemma recognised (k v : string) :
  JSString.assoc k classTypeSuffixes = Some v →
  v = "--subject" ∨ v = "--person" ∨ v = "--place" ∨ v = "--time".
Proof.
  unfold classTypeSuffixes. simpl.
  repeat (destruct (String.eqb k _); [intros [= <-]; tauto|]). done.
Qed.

Lemma interpolate_own (k v : string) :
  JSString.assoc k classTypeSuffixes = Some v →
  JSString.interpolateProperty classTypeSuffixes k = v.
Proof. unfold JSString.interpolateProperty. by intros ->. Qed.

Lemma markup_plain (s : SelectedTag) (v : string) :
  JSString.assoc (tagType s) classTypeSuffixes = Some v →
  markup s
  = beforeName (allWorksTagged s) v +:+ (BulkTagger.tagName s +:+ "</span>").
Proof.
  intros H. unfold markup. rewrite (interpolate_own _ _ H).
  destruct (recognised _ _ H) as [-> | [-> | [-> | ->]]];
    destruct (allWorksTagged s); reflexivity.
Qed.

Lemma feed_beforeName (b : bool) (k v : string) :
  JSString.assoc k classTypeSuffixes = Some v →
  feed Data (beforeName b v)
  = (TTag (Tag false "span"
             [("class", "selected-tag__status " +:+ statusClass b)] false)
     :: TTag (Tag true "span" [] false)
     :: chars indent
     ++ TTag (Tag false "span"
                [("class", "selected-tag__type selected-tag__type" +:+ v)]
                false)
     :: TTag (Tag true "span" [] false)
     :: chars indent
     ++ [ TTag (Tag false "span" [("class", "selected-tag__name")] false) ],
     Data).
Proof.
  intros H. destruct (recognised _ _ H) as [-> | [-> | [-> | ->]]];
    destruct b; vm_compute; reflexivity.
Qed.

Lemma elementOfTag_type (k v : string) (r : nat) :
  JSString.assoc k classTypeSuffixes = Some v →
  elementOfTag (Tag false "span"
                  [("class", "selected-tag__type selected-tag__type" +:+ v)]
                  false) r
  = typeElement v r.
Proof.
  intros H. by destruct (recognised _ _ H) as [-> | [-> | [-> | ->]]].
Qed.

Lemma insertText_after (kids : list child) (n : nat) :
  insertText indent (kids ++ [CElem n]) = kids ++ [CElem n; CText indent].
Proof.
  rewrite <- (app_nil_r (kids ++ [CElem n])) at 1.
  rewrite insertText_closed by (right; eauto).
  by rewrite <- app_assoc.
Qed.

Lemma fold_left_one {A B} (f : A → B → A) (x : B) (l : list B) (a : A) :
  fold_left f (x :: l) a = fold_left f l (f a x).
Proof. reflexivity. Qed.

Lemma tokenize_plain (s : SelectedTag) (v : string) :
  JSString.assoc (tagType s) classTypeSuffixes = Some v →
  plain (BulkTagger.tagName s) = true →
  tokenize Data (markup s)
  = TTag (Tag false "span"
            [("class", "selected-tag__status " +:+ statusClass (allWorksTagged s))]
            false)
    :: TTag (Tag true "span" [] false)
    :: chars indent
    ++ TTag (Tag false "span"
               [("class", "selected-tag__type selected-tag__type" +:+ v)] false)
    :: TTag (Tag true "span" [] false)
    :: chars indent
    ++ TTag (Tag false "span" [("class", "selected-tag__name")] false)
    :: chars (BulkTagger.tagName s)
    ++ [TTag (Tag true "span" [] false)].
Proof.
  intros Hv Hp. rewrite (markup_plain s v Hv), tokenize_feed.
  rewrite (feed_beforeName _ _ _ Hv). cbn [fst snd].
  rewrite tokenize_feed, (feed_plain _ Hp). cbn [fst snd].
  change (tokenize Data "</span>") with [TTag (Tag true "span" [] false)].
  rewrite <- !app_comm_cons, <- app_assoc, <- !app_comm_cons, <- app_assoc.
  reflexivity.
Qed.

(** X1: what [renderAndAttach] builds for a recognised type and a tag
    name of code units below 256 without [<], [&], carriage return and
    U+0000, on a page that has the container: one new element, first
    child of the container, whose children are the status marker, the
    category marker of the type and the label holding the tag name as
    text, with the indentation of the template between them. *)
Theorem renderAndAttach_plain (tagType suffix tagName : string)
    (allWorksTagged : bool) (d : document) (c : nat) :
  DOM.document_querySelector ".selected-tag-subjects" d = Found c →
  JSString.assoc tagType classTypeSuffixes = Some suffix →
  plain tagName = true →
  ∃ w r sid tid nid ec,
    renderAndAttach (World (constructor tagType tagName allWorksTagged) d)
    = (Normal tt, w)
    ∧ this w = Instance tagType tagName allWorksTagged true (Some r)
                        (JSString.toLowerCase tagName)
    ∧ nodes d !! r = None
    ∧ nodes d !! c = Some ec
    ∧ nodes (page w) !! c = Some (with_childNodes (cons (CElem r)) ec)
    ∧ nodes (page w) !! r
      = Some (rootElement (Some c)
                [CElem sid; CText indent; CElem tid; CText indent; CElem nid])
    ∧ nodes (page w) !! sid = Some (statusElement allWorksTagged r)
    ∧ nodes (page w) !! tid = Some (typeElement suffix r)
    ∧ nodes (page w) !! nid = Some (nameElement tagName r)
    ∧ (∀ i x, nodes d !! i = Some x → i ≠ c → nodes (page w) !! i = Some x)
    ∧ documentElement (page w) = documentElement d.
Proof.
  intros Hq Hv Hp.
  set (s := constructor tagType tagName allWorksTagged).
  set (r := fresh (dom (nodes d))).
  assert (nodes d !! r = None) as Hr by (apply not_elem_of_dom, is_fresh).
  pose proof (tokenize_plain s suffix Hv Hp) as Ht.
  change (BulkTagger.allWorksTagged s) with allWorksTagged in Ht.
  change (BulkTagger.tagName s) with tagName in Ht.
  set (t1 := Tag false "span" _ false) in Ht at 1.
  set (t' := Tag true "span" [] false) in *.
  set (t2 := Tag false "span" _ false) in Ht at 1.
  set (t3 := Tag false "span" _ false) in Ht.
  destruct (atTop_element r (nodes d) (rootElement None []) [] _ t1 t'
              eq_refl eq_refl eq_refl eq_refl (atTop_new r (nodes d) Hr))
    as (Hsid & Hsr & Htop1).
  set (sid := fresh (dom (store (Builder _ [])))) in *. clearbody sid.
  replace (elementOfTag t1 r) with (statusElement allWorksTagged r) in Htop1
    by (symmetry; apply elementOfTag_status).
  apply (atTop_chars _ _ _ indent) in Htop1. rewrite insertText_after in Htop1.
  destruct (atTop_element _ _ _ _ _ t2 t' eq_refl eq_refl eq_refl eq_refl Htop1)
    as (Htid & Htr & Htop2).
  set (tid := fresh (dom (store (fold_left _ (chars indent) _)))) in *.
  clearbody tid. clear Htop1.
  replace (elementOfTag t2 r) with (typeElement suffix r) in Htop2
    by (symmetry; apply (elementOfTag_type tagType), Hv).
  apply (atTop_chars _ _ _ indent) in Htop2. rewrite insertText_after in Htop2.
  destruct (atTop_text_element _ _ _ _ _ t3 t' tagName
              eq_refl eq_refl eq_refl eq_refl Htop2)
    as (Hnid & Hnr & Htop3).
  set (nid := fresh (dom (store (fold_left _ (chars indent) _)))) in *.
  clearbody nid. clear Htop2.
  replace (with_childNodes (insertText tagName) (elementOfTag t3 r))
    with (nameElement tagName r) in Htop3 by reflexivity.
  rewrite <- (app_nil_r (TTag t1 :: _)) in Ht.
  assert (sid ≠ tid) as Hst.
  { intros E. rewrite <- E, lookup_insert_eq in Htid. done. }
  assert (sid ≠ nid ∧ tid ≠ nid) as [Hsn Htn].
  { split; intros E; rewrite <- E in Hnid.
    - rewrite lookup_insert_ne, lookup_insert_eq in Hnid; done.
    - by rewrite lookup_insert_eq in Hnid. }
  rewrite lookup_insert_ne in Htid by done.
  rewrite !lookup_insert_ne in Hnid by done.
  destruct (render_built s d c
              (<[nid := nameElement tagName r]>
                 (<[tid := typeElement suffix r]>
                    (<[sid := statusElement allWorksTagged r]> (nodes d))))
              (([] ++ [CElem sid; CText indent] ++ [CElem tid; CText indent])
               ++ [CElem nid])
              _ [] Hq Ht)
    as (d' & more & ec & Hrun & Hde & Hc & Hc' & Hr' & HF & Hcr & _ & Hmore).
  { rewrite fold_left_two, fold_left_app, fold_left_two, fold_left_app.
    rewrite fold_left_one, fold_left_app, fold_left_one, fold_left_nil.
    rewrite <- app_assoc in Htop3. exact Htop3. }
  { right. by eexists _, nid. }
  { intros i x Hi. rewrite !lookup_insert_ne; [done|congruence..]. }
  rewrite (Hmore eq_refl), app_nil_r in Hr'.
  exists (World (Instance tagType tagName allWorksTagged true (Some r)
                   (JSString.toLowerCase tagName)) d'), r, sid, tid, nid, ec.
  split_and!; try done.
  - apply HF; [|congruence]. rewrite !lookup_insert_ne by done.
    apply lookup_insert_eq.
  - apply HF; [|congruence]. rewrite lookup_insert_ne by done.
    apply lookup_insert_eq.
  - apply HF; [|congruence]. apply lookup_insert_eq.
  - intros i x Hi Hic. apply HF; [|done].
    rewrite !lookup_insert_ne; [done|congruence..].
Qed.

End Plain.

(** ** The code on particular inputs *)

Module Evaluation.
Import DOM HTML BulkTagger Invariants.

(** C5, as the specification states it, fails: for the type [genre] the
    rendered node has an element of class [selected-tag__type], whose
    second class is [selected-tag__typeundefined]. *)
Lemma category_marker_not_omitted :
  JSString.assoc "genre" classTypeSuffixes = None
  ∧ ∃ w, renderAndAttach Example.genre = (Normal tt, w)
         ∧ selectedTag (this w) = Some 3
         ∧ DOM.element_querySelector 3 ".selected-tag__type" (page w) = Found 5
         ∧ DOM.element_querySelector 3 ".selected-tag__type" (page w) ≠ NotFound
         ∧ classList <$> nodes (page w) !! 5
           = Some ["selected-tag__type"; "selected-tag__typeundefined"].
Proof.
  split; [reflexivity|]. eexists. split; [vm_compute; reflexivity|].
  split_and!; [reflexivity|vm_compute; reflexivity|vm_compute; discriminate|
               vm_compute; reflexivity].
Qed.

(** C2 at the tag name [Fantasy &amp; <span>Sci-Fi</span>]: the label
    does not hold the tag name as text; the reference is decoded and the
    tag becomes an element of the page. *)
Theorem label_is_parsed_as_markup :
  ∃ w, renderAndAttach Example.escaped = (Normal tt, w)
       ∧ selectedTag (this w) = Some 3
       ∧ BulkTagger.tagName (this w) = "Fantasy &amp; <span>Sci-Fi</span>"
       ∧ DOM.element_querySelector 3 ".selected-tag__name" (page w) = Found 6
       ∧ childNodes <$> nodes (page w) !! 6
         = Some [CText "Fantasy & "; CElem 7]
       ∧ nodes (page w) !! 7
         = Some (Element "span" [] [] (Some 6) [CText "Sci-Fi"]).
Proof.
  eexists. split; [vm_compute; reflexivity|].
  split_and!; vm_compute; reflexivity.
Qed.

Import ViteConfig.

(** C6 at a directory with the file [Chart.vue.bak]: the file is
    selected although its name does not end with [.vue], its component
    name is [Chart.bak], and the selection differs from the files that end
    with [.vue]; an entry module is written for every name selected, and
    the configuration names the outputs [ol-[name].js] in the format
    [es]. *)
Theorem getComponentNames_by_substring :
  getComponentNames Example.directory = ["BulkSearch"; "Chart.bak"]
  ∧ JSString.endsWith "Chart.vue.bak" ".vue" = false
  ∧ componentNamesBySuffix Example.directory = ["BulkSearch"]
  ∧ ∃ fs,
      main Example.directory Example.disk
      = Exports (Config "static/build/components/production"
                   (<["BulkSearch" := "static/build/vue-tmp-BulkSearch.js"]>
                      (<["Chart.bak" := "static/build/vue-tmp-Chart.bak.js"]> ∅))
                   (RollupOutput "ol-[name].js" "es")) fs
      ∧ contents fs !! "static/build/vue-tmp-Chart.bak.js"
        = Some (template "Chart.bak")
      ∧ entryFileName "ol-[name].js" "Chart.bak" = "ol-Chart.bak.js".
Proof.
  split; [vm_compute; reflexivity|]. split; [reflexivity|].
  split; [vm_compute; reflexivity|].
  eexists. split; [vm_compute; reflexivity|].
  split; vm_compute; reflexivity.
Qed.

End Evaluation.

(** * Further properties *)

(** ** A witness for the plain rendering *)

Module PlainSample.
Import DOM HTML BulkTagger Invariants Plain.

Lemma renderAndAttach_plain_fantasy :
  DOM.document_querySelector ".selected-tag-subjects" Example.page = Found 2
  ∧ JSString.assoc "subjects" classTypeSuffixes = Some "--subject"
  ∧ plain "Fantasy" = true
  ∧ ∃ w r sid tid nid ec,
      renderAndAttach (World (constructor "subjects" "Fantasy" false)
                             Example.page) = (Normal tt, w)
      ∧ this w = Instance "subjects" "Fantasy" false true (Some r)
                          (JSString.toLowerCase "Fantasy")
      ∧ nodes Example.page !! r = None
      ∧ nodes Example.page !! 2 = Some ec
      ∧ nodes (page w) !! 2 = Some (with_childNodes (cons (CElem r)) ec)
      ∧ nodes (page w) !! r
        = Some (rootElement (Some 2)
                  [CElem sid; CText indent; CElem tid; CText indent;
                   CElem nid])
      ∧ nodes (page w) !! sid = Some (statusElement false r)
      ∧ nodes (page w) !! tid = Some (typeElement "--subject" r)
      ∧ nodes (page w) !! nid = Some (nameElement "Fantasy" r)
      ∧ (∀ i x, nodes Example.page !! i = Some x → i ≠ 2 →
                nodes (page w) !! i = Some x)
      ∧ documentElement (page w) = documentElement Example.page.
Proof.
  split; [reflexivity|]. split; [reflexivity|]. split; [reflexivity|].
  apply (renderAndAttach_plain "subjects" "--subject" "Fantasy" false
           Example.page 2); reflexivity.
Defined.

End PlainSample.

(** ** Attaching and detaching *)

Module Attachment.
Import DOM HTML BulkTagger Invariants Frame Search Building Rendering Tokens
       Mounted Lifecycle.

(** A search that found [c] finds it again after changes that leave every
    other element alone and keep [c] a match. *)
Lemma scan_stable (m m' : gmap nat element) (sel : string) (c : nat)
    (deeper deeper' : list child → found) (cs : list child) (r : found) :
  (∀ i x, i ≠ c → m !! i = Some x → m' !! i = Some x) →
  (∃ e, m !! c = Some e ∧ matches sel e = true) →
  (∃ e, m' !! c = Some e ∧ matches sel e = true) →
  (∀ cs r, r ≠ Stuck → deeper cs = r → deeper' cs = r) →
  r ≠ Stuck → scan m sel deeper cs = r → scan m' sel deeper' cs = r.
Proof.
  intros Hm (e & He & Hme) (e' & He' & Hme') Hd Hr.
  induction cs as [|[n|s|s] cs IH]; simpl; auto.
  destruct (decide (n = c)) as [->|Hn].
  - rewrite He, He', Hme, Hme'. done.
  - destruct (m !! n) as [x|] eqn:E; [|congruence]. rewrite (Hm _ _ Hn E).
    destruct (matches sel x); [done|].
    destruct (deeper (childNodes x)) eqn:D.
    + by rewrite (Hd _ (Found n0)).
    + rewrite (Hd _ NotFound); auto.
    + congruence.
Qed.

Lemma descend_stable (m m' : gmap nat element) (sel : string) (c : nat)
    (f f' : nat) (cs : list child) (r : found) :
  (∀ i x, i ≠ c → m !! i = Some x → m' !! i = Some x) →
  (∃ e, m !! c = Some e ∧ matches sel e = true) →
  (∃ e, m' !! c = Some e ∧ matches sel e = true) →
  f ≤ f' → r ≠ Stuck →
  descend m sel f cs = r → descend m' sel f' cs = r.
Proof.
  intros Hm Hc Hc'. revert f' cs r.
  induction f as [|f IH]; intros f' cs r Hf Hr.
  - simpl. congruence.
  - destruct f' as [|f']; [lia|]. simpl. apply (scan_stable m m' sel c); auto.
    intros cs' r' Hr'. apply IH; [lia|done].
Qed.

Lemma size_le_lookup (m m' : gmap nat element) :
  (∀ i, is_Some (m !! i) → is_Some (m' !! i)) → size m ≤ size m'.
Proof.
  intros H. rewrite <- !size_dom. apply subseteq_size.
  intros i. rewrite !elem_of_dom. apply H.
Qed.

(** The container is found again once an instance was rendered into it. *)
Lemma container_again (d d' : document) (c r : nat) (ec : element) :
  DOM.document_querySelector ".selected-tag-subjects" d = Found c →
  nodes d !! c = Some ec →
  nodes d' !! c = Some (with_childNodes (cons (CElem r)) ec) →
  documentElement d' = documentElement d →
  (∀ i x, nodes d !! i = Some x → i ≠ c → nodes d' !! i = Some x) →
  DOM.document_querySelector ".selected-tag-subjects" d' = Found c.
Proof.
  intros Hq Hc Hc' Hde Hrest. unfold DOM.document_querySelector in *.
  destruct (descend_Found _ _ _ _ _ Hq) as (e & He & Hme).
  assert (e = ec) as -> by congruence. rewrite Hde.
  eapply (descend_stable (nodes d) (nodes d') _ c); [| | | |done|exact Hq].
  - intros i x Hi Hx. auto.
  - eauto.
  - eexists. split; [exact Hc'|]. by destruct ec.
  - unfold bound. apply le_n_S, size_le_lookup. intros i [x Hx].
    destruct (decide (i = c)) as [->|Hi]; eauto.
Qed.

(** X2: [renderAndAttach] on a page that has the container creates
    an element that the page did not have, makes it the first child of the
    container and the container its parent, and changes no other element
    of the page, whatever the tag name holds. *)
Theorem render_changes_only_container (tagType tagName : string)
    (allWorksTagged : bool) (d : document) (c : nat) :
  DOM.document_querySelector ".selected-tag-subjects" d = Found c →
  ∃ w r ec er,
    renderAndAttach (World (constructor tagType tagName allWorksTagged) d)
    = (Normal tt, w)
    ∧ selectedTag (this w) = Some r
    ∧ nodes d !! r = None
    ∧ nodes (page w) !! r = Some er ∧ parentNode er = Some c
    ∧ nodes d !! c = Some ec
    ∧ nodes (page w) !! c = Some (with_childNodes (cons (CElem r)) ec)
    ∧ (∀ i x, nodes d !! i = Some x → i ≠ c → nodes (page w) !! i = Some x)
    ∧ documentElement (page w) = documentElement d.
Proof.
  intros Hq.
  destruct (render_mounted (constructor tagType tagName allWorksTagged) d c
              Hq eq_refl)
    as (d' & sid & more & ec & Hrun & _ & Hr & _ & Hc & Hc' & Hr' & _ & Hde & Hrest).
  eexists _, _, ec, _. split; [exact Hrun|]. simpl. split_and!; eauto.
Qed.

Lemma render_changes_only_container_fantasy :
  DOM.document_querySelector ".selected-tag-subjects" Example.page = Found 2
  ∧ ∃ w r ec er,
      renderAndAttach Example.fantasy = (Normal tt, w)
      ∧ selectedTag (this w) = Some r
      ∧ nodes Example.page !! r = None
      ∧ nodes (page w) !! r = Some er ∧ parentNode er = Some 2
      ∧ nodes Example.page !! 2 = Some ec
      ∧ nodes (page w) !! 2 = Some (with_childNodes (cons (CElem r)) ec)
      ∧ (∀ i x, nodes Example.page !! i = Some x → i ≠ 2 →
                nodes (page w) !! i = Some x)
      ∧ documentElement (page w) = documentElement Example.page.
Proof.
  split; [reflexivity|].
  apply (render_changes_only_container "subjects" "Fantasy" false
           Example.page 2). reflexivity.
Defined.

(** X3: on a page without the container [renderAndAttach] throws a
    [TypeError]; the instance is as it was, its handle not set, and every
    element of the page is as it was. *)
Theorem render_without_container (s : SelectedTag) (d : document) :
  DOM.document_querySelector ".selected-tag-subjects" d = NotFound →
  ∃ d', renderAndAttach (World s d) = (Throw TypeError, World s d')
        ∧ (∀ i x, nodes d !! i = Some x → nodes d' !! i = Some x)
        ∧ documentElement d' = documentElement d.
Proof.
  intros Hq. set (r := fresh (dom (nodes d))).
  assert (nodes d !! r = None) as Hr by (apply not_elem_of_dom, is_fresh).
  pose proof (atTop_built _ _ _ _ _ (atTop_new r (nodes d) Hr)) as Hb.
  apply (fold_built _ _ _ _ (tokenize Data (markup s))) in Hb; [|by left].
  destruct Hb as (HF & _).
  set (m2 := store (fold_left (treeStep r) (tokenize Data (markup s))
                      (Builder (<[r := rootElement None []]> (nodes d)) []))) in *.
  assert (DOM.document_querySelector ".selected-tag-subjects"
            (Document m2 (documentElement d)) = NotFound) as Hq2.
  { unfold DOM.document_querySelector in *. cbn [nodes documentElement].
    eapply descend_mono; [| |done|exact Hq].
    - auto.
    - unfold bound. cbn [nodes]. apply le_n_S, map_subseteq_size.
      apply map_subseteq_spec. auto. }
  exists (Document m2 (documentElement d)). split_and!; [|done|done].
  destruct d as [m root]. destruct s as [tt tn a v h l]. simpl in *.
  js_unfold. unfold DOM.createElement. js_unfold.
  unfold HTML.set_innerHTML, with_nodes. simpl.
  fold r. rewrite new_root by done. fold m2. rewrite Hq2. by js_unfold.
Qed.

Lemma render_without_container_bare :
  DOM.document_querySelector ".selected-tag-subjects" Sample.bare = NotFound
  ∧ ∃ d', renderAndAttach
            (World (constructor "subjects" "Fantasy" false) Sample.bare)
          = (Throw TypeError,
             World (constructor "subjects" "Fantasy" false) d')
          ∧ (∀ i x, nodes Sample.bare !! i = Some x → nodes d' !! i = Some x)
          ∧ documentElement d' = documentElement Sample.bare.
Proof.
  split; [reflexivity|].
  apply (render_without_container (constructor "subjects" "Fantasy" false)
           Sample.bare). reflexivity.
Defined.

(** X4: two instances rendered one after the other into the same page:
    both calls return, and the container then starts with the node of the
    second instance, followed by the node of the first and by the children
    it had. *)
Theorem later_instance_comes_first (type1 name1 type2 name2 : string)
    (all1 all2 : bool) (d : document) (c : nat) :
  DOM.document_querySelector ".selected-tag-subjects" d = Found c →
  ∃ w1 w2 r1 r2 ec,
    renderAndAttach (World (constructor type1 name1 all1) d) = (Normal tt, w1)
    ∧ renderAndAttach (World (constructor type2 name2 all2) (page w1))
      = (Normal tt, w2)
    ∧ selectedTag (this w1) = Some r1
    ∧ selectedTag (this w2) = Some r2
    ∧ r1 ≠ r2
    ∧ nodes d !! c = Some ec
    ∧ childNodes <$> nodes (page w2) !! c
      = Some (CElem r2 :: CElem r1 :: childNodes ec).
Proof.
  intros Hq.
  destruct (render_mounted (constructor type1 name1 all1) d c Hq eq_refl)
    as (d1 & sid1 & more1 & ec & Hrun1 & _ & Hr1 & _ & Hc & Hc1 & Hr1' & _
        & Hde1 & Hrest1).
  pose proof (container_again d d1 c _ ec Hq Hc Hc1 Hde1 Hrest1) as Hq1.
  destruct (render_mounted (constructor type2 name2 all2) d1 c Hq1 eq_refl)
    as (d2 & sid2 & more2 & ec1 & Hrun2 & _ & Hr2 & _ & Hc1' & Hc2 & _).
  assert (ec1 = with_childNodes (cons (CElem (fresh (dom (nodes d))))) ec)
    as -> by congruence.
  eexists _, _, _, _, ec. split; [exact Hrun1|]. split; [exact Hrun2|].
  simpl. split_and!; try done.
  - intros E. rewrite E in Hr1'. congruence.
  - by rewrite Hc2.
Qed.

Lemma filter_other (r : nat) (l : list child) :
  CElem r ∉ l → filter (fun x => x ≠ CElem r) l = l.
Proof.
  induction l as [|x l IH]; [done|]. intros H.
  apply not_elem_of_cons in H as [Hx Hl].
  rewrite filter_cons_True by done. by rewrite IH.
Qed.

Lemma later_instance_comes_first_busy :
  DOM.document_querySelector ".selected-tag-subjects" Sample.busy = Found 2
  ∧ ∃ w1 w2 r1 r2 ec,
      renderAndAttach (World (constructor "subjects" "Fantasy" false)
                             Sample.busy) = (Normal tt, w1)
      ∧ renderAndAttach (World (constructor "subject_places" "Paris" true)
                               (page w1)) = (Normal tt, w2)
      ∧ selectedTag (this w1) = Some r1
      ∧ selectedTag (this w2) = Some r2
      ∧ r1 ≠ r2
      ∧ nodes Sample.busy !! 2 = Some ec
      ∧ childNodes <$> nodes (page w2) !! 2
        = Some (CElem r2 :: CElem r1 :: childNodes ec).
Proof.
  split; [reflexivity|].
  apply (later_instance_comes_first "subjects" "Fantasy" "subject_places"
           "Paris" false true Sample.busy 2). reflexivity.
Defined.

(** X5: [renderAndAttach] called twice on one instance leaves two nodes
    in the container and the handle on the second; [remove] then detaches
    the second only, and the first stays a child of the container. *)
Theorem second_render_orphans_first (tagType tagName : string)
    (allWorksTagged : bool) (d : document) (c : nat) :
  DOM.document_querySelector ".selected-tag-subjects" d = Found c →
  ∃ w1 w2 w3 r1 r2 ec ec3 e1,
    renderAndAttach (World (constructor tagType tagName allWorksTagged) d)
    = (Normal tt, w1)
    ∧ renderAndAttach w1 = (Normal tt, w2)
    ∧ remove w2 = (Normal tt, w3)
    ∧ selectedTag (this w1) = Some r1
    ∧ selectedTag (this w2) = Some r2
    ∧ selectedTag (this w3) = Some r2
    ∧ r1 ≠ r2
    ∧ nodes d !! c = Some ec
    ∧ childNodes <$> nodes (page w2) !! c
      = Some (CElem r2 :: CElem r1 :: childNodes ec)
    ∧ nodes (page w3) !! c = Some ec3
    ∧ CElem r1 ∈ childNodes ec3 ∧ (CElem r2 ∉ childNodes ec3)
    ∧ nodes (page w3) !! r1 = Some e1 ∧ parentNode e1 = Some c.
Proof.
  intros Hq.
  set (s := constructor tagType tagName allWorksTagged).
  destruct (render_mounted s d c Hq eq_refl)
    as (d1 & sid1 & more1 & ec & Hrun1 & _ & Hr1 & _ & Hc & Hc1 & Hr1' & _
        & Hde1 & Hrest1).
  pose proof (container_again d d1 c _ ec Hq Hc Hc1 Hde1 Hrest1) as Hq1.
  set (r1 := fresh (dom (nodes d))) in *.
  set (s1 := Instance _ _ _ true (Some r1) _) in *.
  destruct (render_mounted s1 d1 c Hq1 eq_refl)
    as (d2 & sid2 & more2 & ec1 & Hrun2 & _ & Hr2 & _ & Hc1' & Hc2 & Hr2' & _
        & _ & Hrest2).
  set (r2 := fresh (dom (nodes d1))) in *.
  assert (ec1 = with_childNodes (cons (CElem r1)) ec) as -> by congruence.
  assert (r1 ≠ r2) as Hne by (intros E; rewrite E in Hr1'; congruence).
  assert (c ≠ r1 ∧ c ≠ r2) as [Hc1n Hc2n] by (split; congruence).
  eexists _, _, _, r1, r2, ec, _, _.
  split; [exact Hrun1|]. split; [exact Hrun2|].
  split.
  { js_unfold. unfold removeNode. cbn [nodes]. rewrite Hr2'. reflexivity. }
  cbn [this page selectedTag nodes with_nodes rootElement parentNode].
  split_and!; try done.
  - by rewrite Hc2.
  - rewrite lookup_alter_ne, lookup_alter_eq, Hc2 by done. reflexivity.
  - simpl. rewrite filter_cons_False by (intros H; by apply H).
    rewrite filter_cons_True by congruence. by left.
  - simpl. rewrite list_elem_of_filter. tauto.
  - rewrite !lookup_alter_ne by done. apply Hrest2; [exact Hr1'|done].
  - done.
Qed.

Lemma second_render_orphans_first_fantasy :
  DOM.document_querySelector ".selected-tag-subjects" Example.page = Found 2
  ∧ ∃ w1 w2 w3 r1 r2 ec ec3 e1,
      renderAndAttach Example.fantasy = (Normal tt, w1)
      ∧ renderAndAttach w1 = (Normal tt, w2)
      ∧ remove w2 = (Normal tt, w3)
      ∧ selectedTag (this w1) = Some r1
      ∧ selectedTag (this w2) = Some r2
      ∧ selectedTag (this w3) = Some r2
      ∧ r1 ≠ r2
      ∧ nodes Example.page !! 2 = Some ec
      ∧ childNodes <$> nodes (page w2) !! 2
        = Some (CElem r2 :: CElem r1 :: childNodes ec)
      ∧ nodes (page w3) !! 2 = Some ec3
      ∧ CElem r1 ∈ childNodes ec3 ∧ (CElem r2 ∉ childNodes ec3)
      ∧ nodes (page w3) !! r1 = Some e1 ∧ parentNode e1 = Some 2.
Proof.
  split; [reflexivity|].
  apply (second_render_orphans_first "subjects" "Fantasy" false
           Example.page 2). reflexivity.
Defined.

(** X6: on a page whose container has only children that are elements
    of the page, [renderAndAttach] followed by [remove] returns and leaves
    every element of the page, the container included, as it was before
    the two calls; the node is detached and the handle still refers to
    it. *)
Theorem render_then_remove_restores (tagType tagName : string)
    (allWorksTagged : bool) (d : document) (c : nat) (ec : element) :
  DOM.document_querySelector ".selected-tag-subjects" d = Found c →
  nodes d !! c = Some ec →
  (∀ n, CElem n ∈ childNodes ec → is_Some (nodes d !! n)) →
  ∃ w r er,
    (renderAndAttach;; remove)%js
      (World (constructor tagType tagName allWorksTagged) d) = (Normal tt, w)
    ∧ (∀ i x, nodes d !! i = Some x → nodes (page w) !! i = Some x)
    ∧ documentElement (page w) = documentElement d
    ∧ selectedTag (this w) = Some r
    ∧ nodes d !! r = None
    ∧ nodes (page w) !! r = Some er ∧ parentNode er = None.
Proof.
  intros Hq Hc Hkids.
  set (s := constructor tagType tagName allWorksTagged).
  destruct (render_mounted s d c Hq eq_refl)
    as (d1 & sid1 & more1 & ec' & Hrun1 & _ & Hr1 & _ & Hc0 & Hc1 & Hr1' & _
        & Hde1 & Hrest1).
  assert (ec' = ec) as -> by congruence.
  set (r := fresh (dom (nodes d))) in *.
  assert (c ≠ r) as Hcr by congruence.
  assert (CElem r ∉ childNodes ec) as Hnot.
  { intros H. apply Hkids in H as [x Hx]. congruence. }
  eexists _, r, _. split.
  { unfold bind. rewrite Hrun1. js_unfold. unfold removeNode. cbn [nodes].
    rewrite Hr1'. reflexivity. }
  cbn [this page selectedTag nodes with_nodes documentElement rootElement
       parentNode].
  split_and!; try done.
  - intros i x Hi. destruct (decide (i = c)) as [->|Hic].
    + rewrite lookup_alter_ne, lookup_alter_eq, Hc1 by done.
      assert (x = ec) as -> by congruence. simpl. f_equal.
      destruct ec. unfold with_childNodes. simpl in *. f_equal.
      rewrite filter_cons_False by (intros H; by apply H).
      by apply filter_other.
    + assert (i ≠ r) by congruence. rewrite !lookup_alter_ne by done. auto.
  - by rewrite lookup_alter_eq, lookup_alter_ne, Hr1'.
  - done.
Qed.

Lemma render_then_remove_restores_busy :
  DOM.document_querySelector ".selected-tag-subjects" Sample.busy = Found 2
  ∧ nodes Sample.busy !! 2
    = Some (Element "div" ["selected-tag-subjects"] [] (Some 1) [CElem 3])
  ∧ (∀ n, CElem n ∈ [CElem 3] → is_Some (nodes Sample.busy !! n))
  ∧ ∃ w r er,
      (renderAndAttach;; remove)%js
        (World (constructor "subjects" "Fantasy" false) Sample.busy)
      = (Normal tt, w)
      ∧ (∀ i x, nodes Sample.busy !! i = Some x → nodes (page w) !! i = Some x)
      ∧ documentElement (page w) = documentElement Sample.busy
      ∧ selectedTag (this w) = Some r
      ∧ nodes Sample.busy !! r = None
      ∧ nodes (page w) !! r = Some er ∧ parentNode er = None.
Proof.
  assert (∀ n, CElem n ∈ [CElem 3] → is_Some (nodes Sample.busy !! n)) as H.
  { intros n Hn. apply list_elem_of_singleton in Hn as [= ->].
    eexists. reflexivity. }
  split; [reflexivity|]. split; [reflexivity|]. split; [exact H|].
  apply (render_then_remove_restores "subjects" "Fantasy" false Sample.busy 2
           (Element "div" ["selected-tag-subjects"] [] (Some 1) [CElem 3]));
    [reflexivity|reflexivity|exact H].
Defined.

End Attachment.

(** ** How the calls compose *)

Module Composition.
Import DOM HTML BulkTagger Invariants Frame Search Building Rendering Tokens
       Mounted Lifecycle.

(** On a rendered instance [updateAllWorksTagged(b)] stores [b] and
    leaves the status marker with its base class and the class of [b]. *)
Lemma update_normal (r sid c : nat) (w : world) (b : bool) :
  mounted r sid c w →
  updateAllWorksTagged b w
  = (Normal tt,
     World (Instance (tagType (this w)) (tagName (this w)) b
                     (isVisible (this w)) (Some r)
                     (LOWERCASE_TAG_NAME (this w)))
           (with_nodes
              (alter (with_classList
                        (fun _ => ["selected-tag__status"; statusClass b]))
                     sid)
              (page w))).
Proof.
  intros (Hh & Hrs & Hcr & Hcs & er & es & Hr & Hhd & Hp & Hs & Hcl & Hv).
  destruct w as [[tt tn a v h l] [m root]]. simpl in *. subst h.
  js_unfold. rewrite (status_found r sid _ er es a) by done.
  destruct b; js_unfold; unfold with_nodes; simpl; do 3 f_equal;
    rewrite alter_alter_eq; apply alter_ext; intros x Hx;
    assert (x = es) as -> by congruence;
    unfold with_classList; simpl; rewrite Hcl; f_equal;
    destruct a; vm_compute; reflexivity.
Qed.

Lemma update_mounted (r sid c : nat) (w : world) (b : bool) :
  mounted r sid c w → mounted r sid c (updateAllWorksTagged b w).2.
Proof.
  intros Hm.
  destruct (perform_mounted r sid c w (UpdateAllWorksTagged b))
    as (w' & Hrun & Hm' & _); [done|done|].
  cbn [perform] in Hrun. by rewrite Hrun.
Qed.

Lemma visibility_mounted (r sid c : nat) (w : world) (k : call) :
  k = Hide ∨ k = Show ∨ k = ToggleVisibility →
  mounted r sid c w →
  ∃ w', perform k w = (Normal tt, w') ∧ mounted r sid c w'.
Proof.
  intros Hk Hm.
  destruct (perform_mounted r sid c w k) as (w' & Hrun & Hm' & _);
    [by destruct Hk as [-> | [-> | ->]]|done|eauto].
Qed.

(** X7: on a rendered instance, [updateAllWorksTagged(b)] followed by
    [updateAllWorksTagged(b')] leaves the instance and the page exactly as
    [updateAllWorksTagged(b')] alone does. *)
Theorem last_update_wins (tagType tagName : string) (allWorksTagged : bool)
    (d : document) (c : nat) (cs : list call) (b b' : bool) :
  DOM.document_querySelector ".selected-tag-subjects" d = Found c →
  existsb isRender cs = false →
  ∃ w, (renderAndAttach;; performAll cs)%js
         (World (constructor tagType tagName allWorksTagged) d) = (Normal tt, w)
       ∧ (updateAllWorksTagged b;; updateAllWorksTagged b')%js w
         = updateAllWorksTagged b' w.
Proof.
  intros Hq Hcs.
  destruct (lifecycle tagType tagName allWorksTagged d c cs Hq Hcs)
    as (w & sid & Hrun & Hm & _).
  exists w. split; [done|]. set (r := fresh (dom (nodes d))) in *.
  pose proof (update_mounted r sid c w b Hm) as Hm1.
  unfold bind. rewrite (update_normal r sid c w b Hm) in *.
  cbn [snd] in Hm1. rewrite (update_normal r sid c _ b' Hm1).
  rewrite (update_normal r sid c w b' Hm).
  cbn [this page BulkTagger.tagType BulkTagger.tagName isVisible LOWERCASE_TAG_NAME].
  do 2 f_equal. destruct (page w) as [m root]. unfold with_nodes. simpl.
  f_equal. rewrite alter_alter_eq. by apply alter_ext.
Qed.

Lemma last_update_wins_fantasy :
  DOM.document_querySelector ".selected-tag-subjects" Example.page = Found 2
  ∧ existsb isRender [Hide; UpdateAllWorksTagged true] = false
  ∧ ∃ w, (renderAndAttach;; performAll [Hide; UpdateAllWorksTagged true])%js
           Example.fantasy = (Normal tt, w)
         ∧ (updateAllWorksTagged true;; updateAllWorksTagged false)%js w
           = updateAllWorksTagged false w.
Proof.
  split; [reflexivity|]. split; [reflexivity|].
  apply (last_update_wins "subjects" "Fantasy" false Example.page 2
           [Hide; UpdateAllWorksTagged true] true false); reflexivity.
Defined.

(** X8: on a rendered instance, [updateAllWorksTagged] commutes with
    [hide], with [show] and with [toggleVisibility]: either order leaves
    the same instance and the same page. *)
Theorem status_and_visibility_commute (tagType tagName : string)
    (allWorksTagged : bool) (d : document) (c : nat) (cs : list call)
    (b : bool) :
  DOM.document_querySelector ".selected-tag-subjects" d = Found c →
  existsb isRender cs = false →
  ∃ w, (renderAndAttach;; performAll cs)%js
         (World (constructor tagType tagName allWorksTagged) d) = (Normal tt, w)
       ∧ (hide;; updateAllWorksTagged b)%js w
         = (updateAllWorksTagged b;; hide)%js w
       ∧ (show;; updateAllWorksTagged b)%js w
         = (updateAllWorksTagged b;; show)%js w
       ∧ (toggleVisibility;; updateAllWorksTagged b)%js w
         = (updateAllWorksTagged b;; toggleVisibility)%js w.
Proof.
  intros Hq Hcs.
  destruct (lifecycle tagType tagName allWorksTagged d c cs Hq Hcs)
    as (w & sid & Hrun & Hm & _).
  exists w. split; [done|]. set (r := fresh (dom (nodes d))) in *.
  assert (r ≠ sid) as Hrs by apply Hm.
  assert (selectedTag (this w) = Some r) as Hh by apply Hm.
  assert (∀ k, k = Hide ∨ k = Show ∨ k = ToggleVisibility →
            (perform k;; updateAllWorksTagged b)%js w
            = (updateAllWorksTagged b;; perform k)%js w) as H.
  { intros k Hk.
    destruct (visibility_mounted r sid c w k Hk Hm) as (w1 & Hrun1 & Hm1).
    unfold bind. rewrite Hrun1, (update_normal r sid c w1 b Hm1).
    rewrite (update_normal r sid c w b Hm). revert Hrun1.
    destruct w as [[tt tn a v h l] [m root]]. simpl in Hh. subst h.
    destruct Hk as [-> | [-> | ->]]; js_unfold; intros [= <-];
      cbn [this page BulkTagger.tagType BulkTagger.tagName isVisible LOWERCASE_TAG_NAME];
      unfold with_nodes; simpl; do 3 f_equal; by rewrite alter_alter_ne. }
  split_and!; [apply (H Hide)|apply (H Show)|apply (H ToggleVisibility)]; auto.
Qed.

Lemma status_and_visibility_commute_fantasy :
  DOM.document_querySelector ".selected-tag-subjects" Example.page = Found 2
  ∧ existsb isRender [ToggleVisibility] = false
  ∧ ∃ w, (renderAndAttach;; performAll [ToggleVisibility])%js Example.fantasy
         = (Normal tt, w)
         ∧ (hide;; updateAllWorksTagged true)%js w
           = (updateAllWorksTagged true;; hide)%js w
         ∧ (show;; updateAllWorksTagged true)%js w
           = (updateAllWorksTagged true;; show)%js w
         ∧ (toggleVisibility;; updateAllWorksTagged true)%js w
           = (updateAllWorksTagged true;; toggleVisibility)%js w.
Proof.
  split; [reflexivity|]. split; [reflexivity|].
  apply (status_and_visibility_commute "subjects" "Fantasy" false
           Example.page 2 [ToggleVisibility] true); reflexivity.
Defined.

(** X9: on a rendered instance, [toggleVisibility] does what [hide] does
    when the instance is visible and what [show] does when it is hidden:
    same completion, same instance, same page. *)
Theorem toggle_is_hide_or_show (tagType tagName : string)
    (allWorksTagged : bool) (d : document) (c : nat) (cs : list call) :
  DOM.document_querySelector ".selected-tag-subjects" d = Found c →
  existsb isRender cs = false →
  ∃ w, (renderAndAttach;; performAll cs)%js
         (World (constructor tagType tagName allWorksTagged) d) = (Normal tt, w)
       ∧ toggleVisibility w = if isVisible (this w) then hide w else show w.
Proof.
  intros Hq Hcs.
  destruct (lifecycle tagType tagName allWorksTagged d c cs Hq Hcs)
    as (w & sid & Hrun & Hm & _).
  exists w. split; [done|].
  destruct Hm as (Hh & _ & _ & _ & er & es & Hr & _ & _ & _ & _ & Hv).
  destruct w as [[tt tn a v h l] [m root]]. simpl in *. subst h.
  destruct v; js_unfold; unfold with_nodes; simpl; do 3 f_equal;
    apply alter_ext; intros x Hx; assert (x = er) as -> by congruence;
    unfold with_classList; simpl; f_equal; unfold toggle, add;
    destruct (contains "hidden" (classList er)); done.
Qed.

Lemma toggle_is_hide_or_show_fantasy :
  DOM.document_querySelector ".selected-tag-subjects" Example.page = Found 2
  ∧ existsb isRender [Hide; UpdateAllWorksTagged true] = false
  ∧ ∃ w, (renderAndAttach;; performAll [Hide; UpdateAllWorksTagged true])%js
           Example.fantasy = (Normal tt, w)
         ∧ toggleVisibility w
           = if isVisible (this w) then hide w else show w.
Proof.
  split; [reflexivity|]. split; [reflexivity|].
  apply (toggle_is_hide_or_show "subjects" "Fantasy" false Example.page 2
           [Hide; UpdateAllWorksTagged true]); reflexivity.
Defined.

(** X10: whatever methods are called on an instance, and whether they
    return or throw, [tagType] and [tagName] stay what the constructor was
    given and [LOWERCASE_TAG_NAME] stays the lower-cased [tagName]. *)
Theorem fields_never_change (tagType tagName : string) (allWorksTagged : bool)
    (d : document) (cs : list call) :
  let w := (handle cs (World (constructor tagType tagName allWorksTagged) d)).2 in
  BulkTagger.tagType (this w) = tagType
  ∧ BulkTagger.tagName (this w) = tagName
  ∧ LOWERCASE_TAG_NAME (this w) = JSString.toLowerCase tagName.
Proof.
  assert (∀ cs w, BulkTagger.tagType (this (handle cs w).2)
                  = BulkTagger.tagType (this w)) as Ht.
  { clear. intros cs. induction cs as [|k cs IH]; intros w; simpl; [done|].
    destruct (perform k w) as [x w'] eqn:Hp.
    destruct (handle cs w') as [ks w''] eqn:Hh. simpl.
    specialize (IH w'). rewrite Hh in IH. simpl in IH. rewrite IH.
    pose proof (perform_names k w) as Hn. rewrite Hp in Hn. apply Hn. }
  intros w. subst w. rewrite Ht.
  destruct (handle_names cs
              (World (constructor tagType tagName allWorksTagged) d)) as [-> ->].
  done.
Qed.

(** X11: on an instance whose handle is not set, every call other than
    [renderAndAttach] throws a [TypeError]; after any number of them the
    page is untouched and the instance differs at most in
    [allWorksTagged], which holds the argument of the last
    [updateAllWorksTagged]. *)
Theorem calls_before_render (w : world) (cs : list call) :
  selectedTag (this w) = None →
  existsb isRender cs = false →
  handle cs w
  = (map (fun _ => Throw TypeError) cs,
     World (Instance (tagType (this w)) (tagName (this w))
                     (lastUpdate (allWorksTagged (this w)) cs)
                     (isVisible (this w)) None (LOWERCASE_TAG_NAME (this w)))
           (page w)).
Proof.
  revert w. induction cs as [|k cs IH]; intros w Hh Hcs.
  - destruct w as [[tt tn a v h l] d]. simpl in *. by subst.
  - simpl in Hcs. apply orb_false_iff in Hcs as [Hk Hcs].
    destruct w as [[tt tn a v h l] d]. simpl in Hh. subst h.
    cbn [handle].
    destruct k; try done; js_unfold; rewrite IH by done; reflexivity.
Qed.

Lemma calls_before_render_fantasy :
  selectedTag (this Example.fantasy) = None
  ∧ existsb isRender [Remove; UpdateAllWorksTagged true; ToggleVisibility]
    = false
  ∧ handle [Remove; UpdateAllWorksTagged true; ToggleVisibility]
      Example.fantasy
    = ([Throw TypeError; Throw TypeError; Throw TypeError],
       World (Instance "subjects" "Fantasy" true true None "fantasy")
             Example.page).
Proof.
  split; [reflexivity|]. split; [reflexivity|].
  apply (calls_before_render Example.fantasy
           [Remove; UpdateAllWorksTagged true; ToggleVisibility]);
    reflexivity.
Defined.

End Composition.

(** ** More on strings *)

Module Text.
Import JSString StringFacts Plain.

Lemma length_append (a b : string) :
  String.length (a +:+ b) = String.length a + String.length b.
Proof.
  induction a as [|c a IH]; [done|]. rewrite append_cons. simpl. by rewrite IH.
Qed.

Lemma append_assoc (a b c : string) : (a +:+ b) +:+ c = a +:+ (b +:+ c).
Proof.
  induction a as [|x a IH]; [done|]. by rewrite !append_cons, IH.
Qed.

Lemma append_inj_r (a b s : string) : a +:+ s = b +:+ s → a = b.
Proof.
  revert b. induction a as [|x a IH]; intros [|y b] H.
  - done.
  - apply (f_equal String.length) in H.
    rewrite !length_append in H. simpl in H. lia.
  - apply (f_equal String.length) in H.
    rewrite !length_append in H. simpl in H. lia.
  - rewrite !append_cons in H. injection H as -> H. f_equal. by apply IH.
Qed.

Lemma toLowerCase_app (a b : string) :
  toLowerCase (a +:+ b) = toLowerCase a +:+ toLowerCase b.
Proof.
  induction a as [|c a IH]; [done|].
  rewrite append_cons. simpl toLowerCase. by rewrite append_cons, IH.
Qed.

Lemma toLowerCase_length (s : string) :
  String.length (toLowerCase s) = String.length s.
Proof. induction s as [|c s IH]; simpl; congruence. Qed.

Lemma lowerUnit_idem (c : ascii) : lowerUnit (lowerUnit c) = lowerUnit c.
Proof. destruct c as [[] [] [] [] [] [] [] []]; reflexivity. Qed.

Lemma toLowerCase_idem (s : string) : toLowerCase (toLowerCase s) = toLowerCase s.
Proof.
  induction s as [|c s IH]; simpl; [done|]. by rewrite lowerUnit_idem, IH.
Qed.

Lemma startsWith_shorter (s p : string) :
  String.length s < String.length p → startsWith s p = false.
Proof.
  revert s. induction p as [|b p IH]; intros s H.
  - simpl in H. lia.
  - destruct s as [|a s]; [done|]. simpl in *.
    destruct (Ascii.eqb a b); [|done]. apply IH. lia.
Qed.

Lemma startsWith_left (s a b : string) :
  startsWith s (a +:+ b) = true → startsWith s a = true.
Proof.
  rewrite !startsWith_prefix. intros [t ->]. exists (b +:+ t).
  apply append_assoc.
Qed.

End Text.

(** ** The prefix test as a filter *)

Module Filtering.
Import BulkTagger Frame Text.

Lemma startsWith_run (tagType tagName : string) (allWorksTagged : bool)
    (d : DOM.document) (cs : list call) (s : string) :
  let w := (handle cs (World (constructor tagType tagName allWorksTagged) d)).2 in
  tagNameStartsWith s w
  = (Normal (JSString.startsWith (JSString.toLowerCase tagName)
                                 (JSString.toLowerCase s)), w).
Proof.
  intros w.
  assert (LOWERCASE_TAG_NAME (this w) = JSString.toLowerCase tagName) as Hl.
  { subst w. by destruct (handle_names cs
      (World (constructor tagType tagName allWorksTagged) d)) as [_ ->]. }
  unfold tagNameStartsWith. js_unfold. by rewrite Hl.
Qed.

(** X12: on strings of code units below 256, where [toLowerCase] maps
    each code unit by itself: if [tagNameStartsWith] answers [true] for
    a search string, it answers [true] for every string that the search
    string starts with, so typing more characters can only lose
    matches. *)
Theorem longer_search_narrows (tagType tagName : string)
    (allWorksTagged : bool) (d : DOM.document) (cs : list call)
    (typed more : string) :
  (tagNameStartsWith (typed +:+ more)
     (handle cs (World (constructor tagType tagName allWorksTagged) d)).2).1
  = Normal true →
  (tagNameStartsWith typed
     (handle cs (World (constructor tagType tagName allWorksTagged) d)).2).1
  = Normal true.
Proof.
  rewrite !startsWith_run, toLowerCase_app. cbn [fst].
  intros [= H]. by rewrite (startsWith_left _ _ _ H).
Qed.

Lemma longer_search_narrows_fantasy :
  (tagNameStartsWith ("Fan" +:+ "TA") (handle [] Example.fantasy).2).1
  = Normal true
  ∧ (tagNameStartsWith "Fan" (handle [] Example.fantasy).2).1 = Normal true.
Proof.
  split; [reflexivity|].
  apply (longer_search_narrows "subjects" "Fantasy" false Example.page []
           "Fan" "TA"). reflexivity.
Defined.

(** X13: on strings of code units below 256, where [toLowerCase] keeps
    the length: for a search string longer than the tag name
    [tagNameStartsWith] answers [false]. *)
Theorem search_longer_than_name (tagType tagName : string)
    (allWorksTagged : bool) (d : DOM.document) (cs : list call)
    (searchString : string) :
  String.length tagName < String.length searchString →
  (tagNameStartsWith searchString
     (handle cs (World (constructor tagType tagName allWorksTagged) d)).2).1
  = Normal false.
Proof.
  intros H. rewrite startsWith_run. cbn [fst].
  rewrite startsWith_shorter; [done|]. by rewrite !toLowerCase_length.
Qed.

Lemma search_longer_than_name_fantasy :
  String.length "Fantasy" < String.length "fantasy novels"
  ∧ (tagNameStartsWith "fantasy novels" (handle [Hide] Example.fantasy).2).1
    = Normal false.
Proof.
  assert (String.length "Fantasy" < String.length "fantasy novels") as H
    by (simpl; lia).
  split; [exact H|].
  apply (search_longer_than_name "subjects" "Fantasy" false Example.page
           [Hide] "fantasy novels" H).
Defined.

(** X14: on strings of code units below 256, the answer of
    [tagNameStartsWith] depends on the tag name and on the search string
    only through their lower-cased forms: the
    lower-cased search string gets the same answer, and so does an
    instance built with the lower-cased tag name. *)
Theorem search_ignores_case (tagType tagName : string) (allWorksTagged : bool)
    (d : DOM.document) (s : string) :
  let w := World (constructor tagType tagName allWorksTagged) d in
  let w' := World (constructor tagType (JSString.toLowerCase tagName)
                               allWorksTagged) d in
  (tagNameStartsWith (JSString.toLowerCase s) w).1 = (tagNameStartsWith s w).1
  ∧ (tagNameStartsWith s w').1 = (tagNameStartsWith s w).1.
Proof.
  unfold tagNameStartsWith, constructor. js_unfold.
  by rewrite !toLowerCase_idem.
Qed.

End Filtering.

(** ** Entry files and the exported configuration *)

Module Build.
Import JSString ViteConfig Text Plain StringFacts.

Lemma entryPath_eq (n : string) :
  entryPath n = "static/build/vue-tmp-" +:+ n +:+ ".js".
Proof. reflexivity. Qed.

Lemma entryPath_inj (n n' : string) : entryPath n = entryPath n' → n = n'.
Proof.
  rewrite !entryPath_eq. intros H.
  assert (n +:+ ".js" = n' +:+ ".js") as H' by (by injection H).
  by apply append_inj_r in H'.
Qed.

(** X15: two different component names never get the same entry file. *)
Theorem distinct_names_distinct_entries (n n' : string) :
  n ≠ n' → entryPath n ≠ entryPath n'.
Proof. intros H E. by apply H, entryPath_inj. Qed.

Lemma distinct_names_distinct_entries_sample :
  "BulkSearch" ≠ "BulkSearchX"
  ∧ entryPath "BulkSearch" ≠ entryPath "BulkSearchX".
Proof.
  assert ("BulkSearch" ≠ "BulkSearchX") as H by discriminate.
  split; [exact H|]. exact (distinct_names_distinct_entries _ _ H).
Defined.

Lemma write_refused (p t : string) (fs fs' : filesystem) :
  writeFileSync p t fs = Some fs' →
  (p ∉ refused fs) ∧ refused fs' = refused fs
  ∧ contents fs' = <[p := t]> (contents fs).
Proof.
  unfold writeFileSync. case_bool_decide; [done|]. by intros [= <-].
Qed.

Lemma generateAll_keeps (names : list string) (fs fs' : filesystem)
    (p t : string) :
  generateAll names fs = Some fs' →
  contents fs !! p = Some t →
  (∀ n, n ∈ names → p = entryPath n → t = template n) →
  contents fs' !! p = Some t.
Proof.
  revert fs. induction names as [|n names IH]; intros fs Hg Hp Hc; simpl in Hg.
  - by injection Hg as <-.
  - unfold generateViteEntryFile in Hg.
    destruct (writeFileSync _ _ fs) as [fs1|] eqn:Hw; [|done].
    apply write_refused in Hw as (_ & _ & Hw).
    apply (IH fs1 Hg).
    + rewrite Hw. destruct (decide (entryPath n = p)) as [<-|Hne].
      * rewrite lookup_insert_eq. f_equal. symmetry. apply Hc; [by left|done].
      * by rewrite lookup_insert_ne.
    + intros n' Hn'. apply Hc. by right.
Qed.

Lemma generateAll_Some (names : list string) (fs fs' : filesystem) :
  generateAll names fs = Some fs' →
  (∀ n, n ∈ names → contents fs' !! entryPath n = Some (template n))
  ∧ (∀ p, (∀ n, n ∈ names → p ≠ entryPath n) →
          contents fs' !! p = contents fs !! p)
  ∧ refused fs' = refused fs.
Proof.
  revert fs. induction names as [|n names IH]; intros fs Hg; simpl in Hg.
  - injection Hg as <-. split_and!; [|done|done].
    intros n Hn. by apply elem_of_nil in Hn.
  - unfold generateViteEntryFile in Hg.
    destruct (writeFileSync _ _ fs) as [fs1|] eqn:Hw; [|done].
    apply write_refused in Hw as (_ & Hr & Hw).
    destruct (IH fs1 Hg) as (Ha & Hb & Hc). split_and!.
    + intros k Hk. apply elem_of_cons in Hk as [->|Hk]; [|by apply Ha].
      apply (generateAll_keeps names fs1 fs' _ _ Hg).
      * by rewrite Hw, lookup_insert_eq.
      * intros n' _ E. by apply entryPath_inj in E as ->.
    + intros p Hp. rewrite Hb.
      * rewrite Hw, lookup_insert_ne; [done|].
        intros E. apply (Hp n); [by left|done].
      * intros n' Hn'. apply Hp. by right.
    + congruence.
Qed.

Lemma generateAll_None (names : list string) (fs : filesystem) :
  generateAll names fs = None ↔ ∃ n, n ∈ names ∧ entryPath n ∈ refused fs.
Proof.
  revert fs. induction names as [|n names IH]; intros fs; simpl.
  - split; [done|]. intros (n & Hn & _). by apply elem_of_nil in Hn.
  - unfold generateViteEntryFile, writeFileSync.
    case_bool_decide as Hr.
    + split; [|done]. intros _. exists n. split; [by left|done].
    + rewrite IH. simpl. split.
      * intros (k & Hk & Hkr). exists k. split; [by right|done].
      * intros (k & Hk & Hkr). apply elem_of_cons in Hk as [->|Hk]; [done|].
        eauto.
Qed.

(** X16: [generateViteEntryFile] over a list of component names either
    stops at a name whose entry file cannot be written, or leaves, for
    every name, the entry file holding the template of that name, and
    every file that is no entry file of the list as it was. *)
Theorem generateAll_outcome (names : list string) (fs : filesystem) :
  match generateAll names fs with
  | Some fs' =>
      (∀ n, n ∈ names → contents fs' !! entryPath n = Some (template n))
      ∧ (∀ p, (∀ n, n ∈ names → p ≠ entryPath n) →
              contents fs' !! p = contents fs !! p)
      ∧ (∀ n, n ∈ names → entryPath n ∉ refused fs)
  | None => ∃ n, n ∈ names ∧ entryPath n ∈ refused fs
  end.
Proof.
  destruct (generateAll names fs) as [fs'|] eqn:Hg.
  - destruct (generateAll_Some _ _ _ Hg) as (Ha & Hb & _).
    split_and!; [done|done|]. intros n Hn Hr.
    assert (generateAll names fs = None) as E
      by (apply generateAll_None; eauto).
    congruence.
  - by apply generateAll_None.
Qed.

Lemma inputOf_fold (names : list string) (o : gmap string string) (k : string) :
  fold_left (fun o n => if String.eqb n "__proto__" then o
                        else <[n := entryPath n]> o) names o !! k
  = if bool_decide (k ∈ names ∧ k ≠ "__proto__") then Some (entryPath k)
    else o !! k.
Proof.
  revert o. induction names as [|n names IH]; intros o; cbn [fold_left].
  - rewrite bool_decide_eq_false_2; [done|]. intros [H _].
    by apply elem_of_nil in H.
  - rewrite IH. destruct (decide (k ∈ names ∧ k ≠ "__proto__")) as [H1|H1].
    + rewrite (bool_decide_eq_true_2 _ H1).
      rewrite bool_decide_eq_true_2; [done|].
      split; [right; apply H1|apply H1].
    + rewrite (bool_decide_eq_false_2 _ H1).
      destruct (String.eqb_spec n "__proto__") as [->|Hn].
      * rewrite bool_decide_eq_false_2; [done|]. intros [H2 H3].
        apply elem_of_cons in H2 as [->|H2]; [done|]. by destruct H1.
      * destruct (decide (n = k)) as [->|Hnk].
        -- rewrite lookup_insert_eq, bool_decide_eq_true_2; [done|].
           split; [by left|done].
        -- rewrite lookup_insert_ne by done.
           rewrite bool_decide_eq_false_2; [done|]. intros [H2 H3].
           apply elem_of_cons in H2 as [->|H2]; [done|]. by destruct H1.
Qed.

Lemma inputOf_lookup (names : list string) (k p : string) :
  inputOf names !! k = Some p
  ↔ k ∈ names ∧ k ≠ "__proto__" ∧ p = entryPath k.
Proof.
  unfold inputOf. rewrite inputOf_fold, lookup_empty.
  case_bool_decide as H; split.
  - intros [= <-]. by destruct H.
  - by intros (_ & _ & ->).
  - done.
  - intros (H1 & H2 & _). by destruct H.
Qed.

Lemma selected (files : list string) (n : string) :
  n ∈ getComponentNames files
  ↔ ∃ f, f ∈ files ∧ JSString.includes f ".vue" = true
         ∧ n = JSString.replace f ".vue" "".
Proof.
  unfold getComponentNames. rewrite list_elem_of_fmap. split.
  - intros (f & -> & Hf). apply list_elem_of_filter in Hf as [Hf1 Hf2]. eauto.
  - intros (f & Hf & Hi & ->). exists f. split; [done|].
    by apply list_elem_of_filter.
Qed.

(** X17: the script as a whole.  It ends with exit code 1 exactly when
    the entry file of some selected component cannot be written.
    Otherwise it exports the output directory
    [static/build/components/production], the output pattern
    [ol-[name].js] in the format [es], and an [input] whose keys are
    selected component names, each with its entry file as value, and
    that file holds the template of the component. *)
Theorem main_outcome (files : list string) (fs : filesystem) :
  match main files fs with
  | Exit code =>
      code = 1
      ∧ ∃ f, f ∈ files ∧ JSString.includes f ".vue" = true
             ∧ entryPath (JSString.replace f ".vue" "") ∈ refused fs
  | Exports cfg fs' =>
      outDir cfg = "static/build/components/production"
      ∧ output cfg = RollupOutput "ol-[name].js" "es"
      ∧ (∀ k p, input cfg !! k = Some p →
                k ∈ getComponentNames files ∧ p = entryPath k
                ∧ contents fs' !! p = Some (template k))
      ∧ (∀ k, k ∈ getComponentNames files → k ≠ "__proto__" →
              input cfg !! k = Some (entryPath k))
      ∧ (∀ f, f ∈ files → JSString.includes f ".vue" = true →
              entryPath (JSString.replace f ".vue" "") ∉ refused fs)
  end.
Proof.
  unfold main.
  destruct (generateAll (getComponentNames files) fs) as [fs'|] eqn:Hg.
  - destruct (generateAll_Some _ _ _ Hg) as (Ha & _ & _).
    simpl. split_and!; [done|done| | |].
    + intros k p Hk. apply inputOf_lookup in Hk as (Hk & _ & ->). auto.
    + intros k Hk Hp. by apply inputOf_lookup.
    + intros f Hf Hi Hr.
      assert (generateAll (getComponentNames files) fs = None) as E.
      { apply generateAll_None. eexists. split; [|exact Hr].
        apply selected. eauto. }
      congruence.
  - split; [done|]. apply generateAll_None in Hg as (n & Hn & Hr).
    apply selected in Hn as (f & Hf & Hi & ->). eauto.
Qed.

End Build.

(** ** Selecting the component files *)

Module Selection.
Import JSString ViteConfig Text Plain StringFacts Sample.

Lemma skip_append (a b : string) : skip (String.length a) (a +:+ b) = b.
Proof. induction a as [|c a IH]; [by destruct b|]. by rewrite append_cons. Qed.

Lemma substring_append (a b : string) :
  String.substring 0 (String.length a) (a +:+ b) = a.
Proof.
  induction a as [|c a IH]; [by destruct b|].
  rewrite append_cons. simpl. by rewrite IH.
Qed.

Lemma substring_skip (k : nat) (s : string) :
  k ≤ String.length s → String.substring 0 k s +:+ skip k s = s.
Proof.
  revert s. induction k as [|k IH]; intros s H.
  - by destruct s.
  - destruct s as [|c s]; simpl in H; [lia|].
    simpl String.substring. simpl skip. rewrite append_cons, IH; [done|lia].
Qed.

Lemma endsWith_append (a p : string) : endsWith (a +:+ p) p = true.
Proof.
  unfold endsWith. rewrite length_append.
  replace (String.length a + String.length p - String.length p)
    with (String.length a) by lia.
  rewrite skip_append, String.eqb_refl, andb_true_r.
  apply Nat.leb_le. lia.
Qed.

Lemma endsWith_split (s p : string) :
  endsWith s p = true →
  s = String.substring 0 (String.length s - String.length p) s +:+ p.
Proof.
  unfold endsWith. intros H. apply andb_true_iff in H as [_ H].
  apply String.eqb_eq in H.
  set (k := String.length s - String.length p) in *.
  rewrite <- H. symmetry. apply substring_skip. unfold k. lia.
Qed.

Lemma includes_append (a p : string) : includes (a +:+ p) p = true.
Proof.
  induction a as [|c a IH].
  - change ("" +:+ p) with p. destruct p; simpl; [done|].
    by rewrite Ascii.eqb_refl, startsWith_refl.
  - rewrite append_cons. simpl. rewrite IH. apply orb_true_r.
Qed.

(** An occurrence of [.vue] cannot begin in [b] and end in a [.vue] that
    follows it. *)
Lemma no_straddle (c : ascii) (b : string) :
  startsWith (String c b) ".vue" = false →
  startsWith (String c (b +:+ ".vue")) ".vue" = false.
Proof.
  simpl. destruct (Ascii.eqb c "."); [|done].
  destruct b as [|c2 b]; [reflexivity|]. rewrite append_cons. simpl.
  destruct (Ascii.eqb c2 "v"); [|done].
  destruct b as [|c3 b]; [reflexivity|]. rewrite append_cons. simpl.
  destruct (Ascii.eqb c3 "u"); [|done].
  destruct b as [|c4 b]; [reflexivity|]. rewrite append_cons. simpl.
  rewrite !startsWith_empty. by destruct (Ascii.eqb c4 "e").
Qed.

Lemma replace_extension (base : string) :
  includes base ".vue" = false → replace (base +:+ ".vue") ".vue" "" = base.
Proof.
  induction base as [|c b IH]; [done|].
  intros H. simpl in H. apply orb_false_iff in H as [H1 H2].
  rewrite append_cons.
  change (replace (String c (b +:+ ".vue")) ".vue" "")
    with (if startsWith (String c (b +:+ ".vue")) ".vue"
          then "" +:+ skip 4 (String c (b +:+ ".vue"))
          else String c (replace (b +:+ ".vue") ".vue" "")).
  rewrite no_straddle by exact H1. by rewrite IH.
Qed.

Lemma selected_alike (f : string) :
  vueOnlyAsExtension f = true →
  includes f ".vue" = endsWith f ".vue"
  ∧ (includes f ".vue" = true →
     replace f ".vue" "" = String.substring 0 (String.length f - 4) f).
Proof.
  unfold vueOnlyAsExtension. intros H. apply orb_true_iff in H as [H|H].
  - apply negb_true_iff in H. rewrite H. split; [|done].
    destruct (endsWith f ".vue") eqn:E; [|done].
    apply endsWith_split in E. rewrite E, includes_append in H. done.
  - apply andb_true_iff in H as [He Hb]. apply negb_true_iff in Hb.
    pose proof (endsWith_split _ _ He) as Hs. simpl String.length in Hs.
    rewrite He. split.
    + rewrite Hs. apply includes_append.
    + intros _. rewrite Hs at 1. by apply replace_extension.
Qed.

(** X18: on a directory in which [.vue] occurs in a file name only as
    the extension at its end, [getComponentNames] returns exactly the
    files that end with [.vue], each without that extension, in the order
    of the listing. *)
Theorem getComponentNames_by_extension (files : list string) :
  forallb vueOnlyAsExtension files = true →
  getComponentNames files = componentNamesBySuffix files.
Proof.
  unfold getComponentNames, componentNamesBySuffix.
  induction files as [|f files IH]; [done|].
  simpl. intros H. apply andb_true_iff in H as [Hf Hfs].
  destruct (selected_alike f Hf) as [Hsel Hname].
  destruct (includes f ".vue") eqn:Hi.
  - rewrite !filter_cons_True by done. simpl. rewrite Hname, IH; done.
  - rewrite !filter_cons_False by congruence. by apply IH.
Qed.

Lemma getComponentNames_by_extension_components :
  forallb vueOnlyAsExtension Sample.components = true
  ∧ getComponentNames Sample.components
    = componentNamesBySuffix Sample.components.
Proof.
  split; [reflexivity|].
  apply (getComponentNames_by_extension Sample.components). reflexivity.
Defined.

(** X19: for a selected file in whose name [.vue] occurs only as the
    extension, the component name followed by [.vue] is the file name
    again, so the entry module generated for it imports that very file
    from the components directory. *)
Theorem entry_imports_its_file (f : string) :
  vueOnlyAsExtension f = true →
  includes f ".vue" = true →
  replace f ".vue" "" +:+ ".vue" = f
  ∧ template (replace f ".vue" "")
    = newline
      +:+ "import { createWebComponentSimple } from '../../openlibrary/components/rollupInputCore.js';"
      +:+ newline
      +:+ "import rootComponent from '../../openlibrary/components/" +:+ f
      +:+ "';" +:+ newline
      +:+ "createWebComponentSimple(rootComponent, '"
      +:+ replace f ".vue" "" +:+ "');".
Proof.
  intros Hf Hi. destruct (selected_alike f Hf) as [Hsel Hname].
  rewrite Hi in Hsel. symmetry in Hsel.
  pose proof (endsWith_split _ _ Hsel) as Hs. simpl String.length in Hs.
  rewrite (Hname Hi).
  set (n := String.substring 0 (String.length f - 4) f) in *.
  clearbody n. subst f. split; [done|]. rewrite append_assoc. reflexivity.
Qed.

Lemma entry_imports_its_file_BulkSearch :
  vueOnlyAsExtension "BulkSearch.vue" = true
  ∧ includes "BulkSearch.vue" ".vue" = true
  ∧ replace "BulkSearch.vue" ".vue" "" +:+ ".vue" = "BulkSearch.vue"
  ∧ template (replace "BulkSearch.vue" ".vue" "")
    = newline
      +:+ "import { createWebComponentSimple } from '../../openlibrary/components/rollupInputCore.js';"
      +:+ newline
      +:+ "import rootComponent from '../../openlibrary/components/"
      +:+ "BulkSearch.vue"
      +:+ "';" +:+ newline
      +:+ "createWebComponentSimple(rootComponent, '"
      +:+ replace "BulkSearch.vue" ".vue" "" +:+ "');".
Proof.
  split; [reflexivity|]. split; [reflexivity|].
  apply (entry_imports_its_file "BulkSearch.vue"); reflexivity.
Defined.

End Selection.
